(** * ListTicketsService: the ticket listing query of whaticket-community

    A shallow embedding of the two versions of [ListTicketsService] found in
    the repository,

    - [src/backend/src/services/TicketServices/ListTicketsService.ts]
      (module [Backend] below), and
    - [src/unnamed/part_000] (module [Part000] below),

    together with the part of Sequelize and of the SQL store that gives a
    meaning to the [where]/[include] objects the service builds.

    The service is an [async] function with two awaited collaborator calls
    (the user lookup and [Ticket.findAndCountAll]) and two ways to fail; it is
    embedded in a small error monad that also records the collaborator calls
    in the order they are issued. *)

From Stdlib Require Import Ascii String ZArith.
From stdpp Require Import gmap strings list fin_maps sorting.

#[local] Set Warnings "-register-all,-clear-no-such-hyp".

Local Open Scope string_scope.
Local Open Scope list_scope.
Local Open Scope Z_scope.

(** ** JavaScript strings

    Strings are byte strings. [toLocaleLowerCase] and [trim] are the ASCII
    parts of the JavaScript methods of the same names. *)

Definition lower_ascii (c : ascii) : ascii :=
  let n := Ascii.N_of_ascii c in
  if ((65 <=? n) && (n <=? 90))%N then Ascii.ascii_of_N (n + 32) else c.

Fixpoint toLocaleLowerCase (s : string) : string :=
  match s with
  | EmptyString => EmptyString
  | String c s' => String (lower_ascii c) (toLocaleLowerCase s')
  end.

Fixpoint trimStart (s : string) : string :=
  match s with
  | EmptyString => EmptyString
  | String c s' => if Ascii.is_space c then trimStart s' else s
  end.

Fixpoint trimEnd (s : string) : string :=
  match s with
  | EmptyString => EmptyString
  | String c s' =>
      match trimEnd s' with
      | EmptyString => if Ascii.is_space c then EmptyString else String c EmptyString
      | r => String c r
      end
  end.

Definition trim (s : string) : string := trimEnd (trimStart s).

(** A string made of white space only (the empty string included). *)
Definition white (s : string) : bool :=
  forallb Ascii.is_space (list_ascii_of_string s).

(** JavaScript truthiness of a string: every string but the empty one. *)
Definition truthy (s : string) : bool :=
  match s with EmptyString => false | String _ _ => true end.

(** An optional string parameter ([x?: string]) used as a condition:
    [undefined] and [""] are falsy. *)
Definition given (o : option string) : bool :=
  match o with Some s => truthy s | None => false end.

(** [x === "true"] for an optional string parameter. *)
Definition is_true_flag (o : option string) : bool :=
  bool_decide (o = Some "true").

(** ** SQL [LIKE]

    [like p s] is [s LIKE p]: [%] stands for any run of characters and [_]
    for any one character. The escape character of [LIKE] is not modelled. *)

Fixpoint like (p s : string) : bool :=
  match p with
  | EmptyString => match s with EmptyString => true | String _ _ => false end
  | String c p' =>
      if bool_decide (c = "%"%char) then
        (fix star (s : string) : bool :=
           like p' s ||
           match s with EmptyString => false | String _ s' => star s' end) s
      else if bool_decide (c = "_"%char) then
        match s with EmptyString => false | String _ s' => like p' s' end
      else
        match s with
        | EmptyString => false
        | String d s' => bool_decide (c = d) && like p' s'
        end
  end.

(** The template string [`%${s}%`]. *)
Definition like_pattern (s : string) : string := "%" +:+ s +:+ "%".

(** ** The store: tickets with their contact and messages

    The Sequelize models ([../../models/Ticket], [Contact], [Message],
    [Queue]) and the user the lookup returns are not among the sources. The
    records below hold the columns the service names in its queries. *)

(** Modelled from the spec: the [Contact] model; the search matches the
    "contact name" and the "contact number". *)
Module Contact.
Record t := mk { id : Z; name : string; number : string }.
End Contact.

(** Modelled from the spec: the [Message] model; the search matches the
    "message body". *)
Module Message.
Record t := mk { id : Z; body : string }.
End Message.

(** Modelled from the spec: the [Ticket] model, "a customer conversation
    record, owned by an agent user, carrying a status (e.g., pending, open)
    and unread-message count", assigned to a queue, with its creation and
    last-update timestamps. *)
Module Ticket.
Record t := mk {
  id : Z;
  status : string;
  unreadMessages : Z;
  userId : option Z;      (* owner; NULL while nobody took the ticket *)
  queueId : option Z;     (* NULL for a ticket in no queue *)
  contact : Contact.t;
  createdAt : Z;          (* epoch milliseconds *)
  updatedAt : Z;
  messages : list Message.t
}.
End Ticket.

(** Modelled from the spec: the [Queue] model, "a routing bucket tickets
    are assigned to". *)
Module Queue.
Record t := mk { id : Z; name : string }.
End Queue.

(** Modelled from the spec: what the user lookup returns,
    [{queues: [{id}], profile}]. *)
Module User.
Record t := mk {
  id : Z;
  profile : string;
  queues : option (list Queue.t)   (* [user.queues] may be undefined *)
}.
End User.

Record Store := {
  users : gmap Z User.t;
  all_tickets : list Ticket.t
}.

(** ** Sequelize [where] objects

    A [where] object is a JavaScript object: a finite map from keys to
    conditions, read as the conjunction of its entries. A key is an attribute
    name or the symbol [Op.or]. Spreading an object and then giving a key
    again, [{...w, k: v}], is [<[k:=v]> w]: the later value replaces the
    earlier one. *)

Inductive Value := VInt (n : Z) | VStr (s : string).

Inductive Key := KAttr (name : string) | Op_or.

Global Instance Key_eq_dec : EqDecision Key.
Proof. solve_decision. Defined.

Global Instance Key_countable : Countable Key :=
  inj_countable'
    (λ k, match k with KAttr s => Some s | Op_or => None end)
    (λ o, match o with Some s => KAttr s | None => Op_or end)
    (λ k, match k with KAttr _ => eq_refl | Op_or => eq_refl end).

(** The condition put on one attribute. *)
Inductive Cond :=
  | CEq (v : Value)                (* [attr: v] *)
  | CIn (l : list Z)               (* [{[Op.in]: l}], or an array inside [Op.or] *)
  | CIsNull                        (* [null] inside [Op.or] *)
  | COr (cs : list Cond)           (* [attr: {[Op.or]: [...]}] *)
  | CBetween (lo hi : Z)           (* [{[Op.between]: [lo, hi]}] *)
  | CGt (n : Z)                    (* [{[Op.gt]: n}] *)
  | CLike (pat : string)           (* [{[Op.like]: pat}] *)
  | CLowerLike (col pat : string). (* [where(fn("LOWER", col(c)), "LIKE", pat)] *)

Inductive Entry :=
  | EAttr (c : Cond)
  | EOr (branches : list (string * Cond)). (* [[Op.or]: [{a1: c1}, {a2: c2}, ...]] *)

(** A row of the join: a ticket (with its contact, from the [belongsTo]
    joins) and the message the [LEFT OUTER JOIN] pairs it with, if any. *)
Definition Row : Type := Ticket.t * option Message.t.

Definition column (r : Row) (name : string) : option Value :=
  let t := r.1 in
  if String.eqb name "queueId" then VInt <$> Ticket.queueId t
  else if String.eqb name "userId" then VInt <$> Ticket.userId t
  else if String.eqb name "status" then Some (VStr (Ticket.status t))
  else if String.eqb name "createdAt" then Some (VInt (Ticket.createdAt t))
  else if String.eqb name "updatedAt" then Some (VInt (Ticket.updatedAt t))
  else if String.eqb name "unreadMessages" then Some (VInt (Ticket.unreadMessages t))
  else if String.eqb name "$contact.name$" then Some (VStr (Contact.name (Ticket.contact t)))
  else if String.eqb name "contact.name" then Some (VStr (Contact.name (Ticket.contact t)))
  else if String.eqb name "$contact.number$" then Some (VStr (Contact.number (Ticket.contact t)))
  else if String.eqb name "body" then (λ m, VStr (Message.body m)) <$> r.2
  else None.

Definition value_eqb (a b : Value) : bool :=
  match a, b with
  | VInt x, VInt y => bool_decide (x = y)
  | VStr x, VStr y => bool_decide (x = y)
  | _, _ => false
  end.

(** A comparison with NULL is unknown in SQL; since the conditions built here
    contain no negation, unknown and false select the same rows. *)
Fixpoint eval_cond (r : Row) (attr : string) (c : Cond) : bool :=
  match c with
  | CEq v => match column r attr with Some x => value_eqb x v | None => false end
  | CIn l => match column r attr with Some (VInt x) => bool_decide (x ∈ l) | _ => false end
  | CIsNull => match column r attr with None => true | Some _ => false end
  | COr cs => existsb (eval_cond r attr) cs
  | CBetween lo hi =>
      match column r attr with
      | Some (VInt x) => bool_decide (lo ≤ x ≤ hi)
      | _ => false
      end
  | CGt n => match column r attr with Some (VInt x) => bool_decide (n < x) | _ => false end
  | CLike pat => match column r attr with Some (VStr s) => like pat s | _ => false end
  | CLowerLike col pat =>
      match column r col with
      | Some (VStr s) => like pat (toLocaleLowerCase s)
      | _ => false
      end
  end.

Definition eval_entry (r : Row) (k : Key) (e : Entry) : bool :=
  match k, e with
  | KAttr a, EAttr c => eval_cond r a c
  | Op_or, EOr bs => existsb (λ b, eval_cond r b.1 b.2) bs
  | _, _ => false
  end.

Definition where_holds (w : gmap Key Entry) (r : Row) : bool :=
  bool_decide (map_Forall (λ k e, eval_entry r k e = true) w).

(** ** [include] and the options of [findAndCountAll] *)

Inductive Model := MContact | MQueue | MWhatsapp | MMessage.

Global Instance Model_eq_dec : EqDecision Model.
Proof. solve_decision. Defined.

Record Includeable := {
  model : Model;
  as_ : string;
  attributes : list string;
  include_where : option (gmap Key Entry);
  required : option bool;
  duplicating : option bool
}.

Inductive Direction := ASC | DESC.

Record FindOptions := {
  where_ : gmap Key Entry;
  include : list Includeable;
  distinct : bool;
  limit : Z;
  offset : Z;
  order : list (string * Direction)
}.

(** ** [Ticket.findAndCountAll]

    The query Sequelize issues for these options. Contact, queue and whatsapp
    are [belongsTo] joins and leave one row per ticket. An included [Message]
    model is a [hasMany] join with an [ON] condition: a ticket yields one row
    per message that satisfies it, and, unless the join is [required], one
    row with a NULL message when none does. *)

Definition is_required (i : Includeable) : bool :=
  match required i with
  | Some b => b
  | None => bool_decide (is_Some (include_where i))
  end.

Definition joined_rows (inc : list Includeable) (t : Ticket.t) : list Row :=
  match List.find (λ i, bool_decide (model i = MMessage)) inc with
  | None => [(t, None)]
  | Some i =>
      let on := default ∅ (include_where i) in
      let ms := filter (λ m, where_holds on (t, Some m) = true) (Ticket.messages t) in
      match ms with
      | [] => if is_required i then [] else [(t, None)]
      | _ => (λ m, (t, Some m)) <$> ms
      end
  end.

Definition int_column (t : Ticket.t) (name : string) : Z :=
  match column (t, None) name with Some (VInt n) => n | _ => 0 end.

(** [order_rel o a b]: [a] may come before [b] under [ORDER BY o]. *)
Definition order_rel (o : list (string * Direction)) (a b : Ticket.t) : Prop :=
  match o with
  | [] => True
  | (c, DESC) :: _ => int_column b c ≤ int_column a c
  | (c, ASC) :: _ => int_column a c ≤ int_column b c
  end.

Global Instance order_rel_dec o a b : Decision (order_rel o a b).
Proof. destruct o as [|[c []] ?]; simpl; apply _. Defined.

(** Sequelize builds one [Ticket] instance per primary key out of the rows
    it reads: later rows of a ticket already seen are folded into it. *)
Fixpoint group_by_id (seen : list Z) (l : list Ticket.t) : list Ticket.t :=
  match l with
  | [] => []
  | t :: l' =>
      if bool_decide (Ticket.id t ∈ seen) then group_by_id seen l'
      else t :: group_by_id (Ticket.id t :: seen) l'
  end.

Definition matching_rows (db : list Ticket.t) (o : FindOptions) : list Row :=
  filter (λ r, where_holds (where_ o) r = true)
    (flat_map (joined_rows (include o)) (merge_sort (order_rel (order o)) db)).

(** No included model is [duplicating] here, so Sequelize uses no sub-query
    and [LIMIT]/[OFFSET] cut the joined rows. With [distinct] the count is
    [COUNT(DISTINCT Ticket.id)], otherwise the number of rows. Pages are
    1-based; an [offset] below 0 is read as 0. *)
Definition find_and_count (db : list Ticket.t) (o : FindOptions) : Z * list Ticket.t :=
  let rows := matching_rows db o in
  let count :=
    if distinct o then length (group_by_id [] (fst <$> rows)) else length rows in
  let page := take (Z.to_nat (limit o)) (drop (Z.to_nat (offset o)) rows) in
  (Z.of_nat count, group_by_id [] (fst <$> page)).

(** ** The service monad

    A computation reads the store, appends the collaborator calls it makes to
    a log, and either fails with a domain error or returns. *)

Inductive Error := NotFound | ValidationError.

Inductive Event :=
  | CallShowUser (id : Z)
  | CallFindAndCountAll (o : FindOptions).

Definition Async (A : Type) : Type :=
  Store → list Event → (Error + A) * list Event.

Definition ret {A} (a : A) : Async A := λ _ log, (inr a, log).

Definition throw {A} (e : Error) : Async A := λ _ log, (inl e, log).

Definition bind {A B} (c : Async A) (k : A → Async B) : Async B :=
  λ st log,
    match c st log with
    | (inl e, log') => (inl e, log')
    | (inr a, log') => k a st log'
    end.

Notation "'let*' x ':=' c 'in' k" := (bind c (λ x, k))
  (at level 10, x name, c at level 100, k at level 200).

Definition run {A} (c : Async A) (st : Store) : (Error + A) * list Event := c st [].

(** Modelled from the spec: [ShowUserService] (UserServices/ShowUserService)
    is not among the sources. "fetch user by id; fails with NotFound if
    absent". *)
Definition ShowUserService (id : Z) : Async User.t :=
  λ st log,
    match users st !! id with
    | Some u => (inr u, log ++ [CallShowUser id])
    | None => (inl NotFound, log ++ [CallShowUser id])
    end.

Definition Ticket_findAndCountAll (o : FindOptions) : Async (Z * list Ticket.t) :=
  λ st log, (inr (find_and_count (all_tickets st) o), log ++ [CallFindAndCountAll o]).

(** ** Dates

    A date is its epoch-millisecond value, which is what the unary [+] of the
    source takes of it. The server's local time zone is taken to be UTC. *)

Definition ms_per_day : Z := 86400000.

Definition digit (c : ascii) : option Z := Z.of_nat <$> Ascii.is_nat c.

Definition is_leap (y : Z) : bool :=
  ((y mod 4 =? 0) && negb (y mod 100 =? 0)) || (y mod 400 =? 0).

Definition days_in_month (y m : Z) : Z :=
  if m =? 2 then (if is_leap y then 29 else 28)
  else if (m =? 4) || (m =? 6) || (m =? 9) || (m =? 11) then 30
  else 31.

(** Days from 1970-01-01 to the civil date [y]-[m]-[d]. *)
Definition days_from_civil (y m d : Z) : Z :=
  let y' := if m <=? 2 then y - 1 else y in
  let era := y' / 400 in
  let yoe := y' - era * 400 in
  let mp := (m + 9) mod 12 in
  let doy := (153 * mp + 2) / 5 + d - 1 in
  let doe := yoe * 365 + yoe / 4 - yoe / 100 + doy in
  era * 146097 + doe - 719468.

(** Modelled from the spec: [parseISO] of date-fns is not among the sources.
    "parse as a calendar date"; "Malformed date string → fails during date
    parsing, propagated as a validation error". The calendar date is read in
    the form [YYYY-MM-DD]; [None] is the failure. *)
Definition parseISO (s : string) : option Z :=
  match s with
  | String y1 (String y2 (String y3 (String y4 (String h1
      (String m1 (String m2 (String h2 (String d1 (String d2 EmptyString))))))))) =>
      if bool_decide (h1 = "-"%char) && bool_decide (h2 = "-"%char) then
        y1 ← digit y1; y2 ← digit y2; y3 ← digit y3; y4 ← digit y4;
        m1 ← digit m1; m2 ← digit m2; d1 ← digit d1; d2 ← digit d2;
        let y := 1000 * y1 + 100 * y2 + 10 * y3 + y4 in
        let m := 10 * m1 + m2 in
        let d := 10 * d1 + d2 in
        if (1 <=? m) && (m <=? 12) && (1 <=? d) && (d <=? days_in_month y m)
        then Some (days_from_civil y m d * ms_per_day)
        else None
      else None
  | _ => None
  end.

(** Modelled from the spec: [startOfDay] and [endOfDay] of date-fns, "the
    closed interval [start-of-day, end-of-day] in epoch-millisecond terms". *)
Definition startOfDay (d : Z) : Z := d - d mod ms_per_day.

(** Modelled from the spec: the last millisecond of the day of [d]. *)
Definition endOfDay (d : Z) : Z := startOfDay d + (ms_per_day - 1).

(** ** Request and response

    [pageNumber] and [userId] are decimal numerals in the source; they are
    taken here as the integers they denote, which is what [+pageNumber] and
    the comparison with the integer column [userId] make of them. The
    optional fields are [None] when the parameter is [undefined]. *)

Record Request := {
  searchParam : option string;
  pageNumber : option Z;
  status : option string;
  date : option string;
  showAll : option string;
  userId : Z;
  withUnreadMessages : option string;
  queueIds : option (list Z)
}.

Record Response := {
  tickets : list Ticket.t;
  count : Z;
  hasMore : bool
}.

(** ** The pieces both versions build with *)

Definition include_contact : Includeable :=
  {| model := MContact; as_ := "contact";
     attributes := ["id"; "name"; "number"; "profilePicUrl"];
     include_where := None; required := None; duplicating := None |}.

Definition include_queue : Includeable :=
  {| model := MQueue; as_ := "queue"; attributes := ["id"; "name"; "color"];
     include_where := None; required := None; duplicating := None |}.

Definition include_whatsapp : Includeable :=
  {| model := MWhatsapp; as_ := "whatsapp"; attributes := ["name"];
     include_where := None; required := None; duplicating := None |}.

Definition include_messages (sanitizedSearchParam : string) : Includeable :=
  {| model := MMessage; as_ := "messages"; attributes := ["id"; "body"];
     include_where :=
       Some {[ KAttr "body" :=
                 EAttr (CLowerLike "body" (like_pattern sanitizedSearchParam)) ]};
     required := Some false; duplicating := Some false |}.

(** [[{ userId }, { status: "pending" }]] *)
Definition own_or_pending (userId : Z) : Entry :=
  EOr [("userId", CEq (VInt userId)); ("status", CEq (VStr "pending"))].

(** The three branches of the search disjunction. *)
Definition search_or (sanitizedSearchParam : string) : Entry :=
  EOr [("$contact.name$", CLowerLike "contact.name" (like_pattern sanitizedSearchParam));
       ("$contact.number$", CLike (like_pattern sanitizedSearchParam));
       ("$message.body$", CLowerLike "body" (like_pattern sanitizedSearchParam))].

Definition created_on (day : Z) : Entry :=
  EAttr (CBetween (startOfDay day) (endOfDay day)).

(** ** src/backend/src/services/TicketServices/ListTicketsService.ts *)

Module Backend.

Definition isAdmin (user : User.t) : bool :=
  bool_decide (User.profile user = "admin")
  || bool_decide (User.profile user = "superadmin").

Definition ListTicketsService (req : Request) : Async Response :=
  let searchParam := default "" (searchParam req) in
  let pageNumber := default 1 (pageNumber req) in
  let queueIds := default [] (queueIds req) in
  let* user := ShowUserService (userId req) in
  let userQueueIds := Queue.id <$> default [] (User.queues user) in
  let isAdmin := isAdmin user in
  let effectiveQueueIds :=
    if isAdmin && bool_decide (0 < length queueIds)%nat
    then queueIds else userQueueIds in
  let includeCondition := [include_contact; include_queue; include_whatsapp] in
  let whereCondition : gmap Key Entry := ∅ in
  let whereCondition :=
    if negb isAdmin then
      <[KAttr "queueId" :=
          EAttr (CIn (if bool_decide (length effectiveQueueIds ≠ 0%nat)
                      then effectiveQueueIds else [-1]))]> whereCondition
    else if bool_decide (0 < length effectiveQueueIds)%nat then
      <[KAttr "queueId" := EAttr (CIn effectiveQueueIds)]> whereCondition
    else whereCondition in
  let whereCondition :=
    if is_true_flag (showAll req) then whereCondition
    else <[Op_or := own_or_pending (userId req)]> whereCondition in
  let whereCondition :=
    if given (status req) then
      <[KAttr "status" := EAttr (CEq (VStr (default "" (status req))))]> whereCondition
    else whereCondition in
  let* whereCondition :=
    if given (date req) then
      match parseISO (default "" (date req)) with
      | Some day => ret (<[KAttr "createdAt" := created_on day]> whereCondition)
      | None => throw ValidationError
      end
    else ret whereCondition in
  let sanitizedSearchParam := trim (toLocaleLowerCase searchParam) in
  let includeCondition :=
    if truthy searchParam
    then includeCondition ++ [include_messages sanitizedSearchParam]
    else includeCondition in
  let whereCondition :=
    if truthy searchParam
    then <[Op_or := search_or sanitizedSearchParam]> whereCondition
    else whereCondition in
  let whereCondition :=
    if is_true_flag (withUnreadMessages req) then
      <[KAttr "unreadMessages" := EAttr (CGt 0)]> whereCondition
    else whereCondition in
  let limit := 40 in
  let offset := limit * (pageNumber - 1) in
  let* result :=
    Ticket_findAndCountAll
      {| where_ := whereCondition; include := includeCondition;
         distinct := true; limit := limit; offset := offset;
         order := [("updatedAt", DESC)] |} in
  let count := result.1 in
  let tickets := result.2 in
  let hasMore := bool_decide (count > offset + Z.of_nat (length tickets)) in
  ret {| tickets := tickets; count := count; hasMore := hasMore |}.

End Backend.

(** ** src/unnamed/part_000

    This version declares [queueIds] in its [Request] and never reads it. *)

Module Part000.

Definition isAdmin (user : User.t) : bool :=
  bool_decide (User.profile user = "admin").

Definition ListTicketsService (req : Request) : Async Response :=
  let searchParam := default "" (searchParam req) in
  let pageNumber := default 1 (pageNumber req) in
  let* user := ShowUserService (userId req) in
  let userQueueIds := default [] ((λ qs : list Queue.t, Queue.id <$> qs) <$> User.queues user) in
  let isAdmin := isAdmin user in
  let includeCondition := [include_contact; include_queue; include_whatsapp] in
  let whereCondition : gmap Key Entry :=
    if isAdmin then ∅
    else {[ KAttr "queueId" := EAttr (COr [CIn userQueueIds; CIsNull]) ]} in
  let whereCondition :=
    if negb isAdmin then <[Op_or := own_or_pending (userId req)]> whereCondition
    else {[ Op_or := own_or_pending (userId req) ]} in
  let whereCondition :=
    if is_true_flag (showAll req) then
      if isAdmin then ∅
      else {[ KAttr "queueId" := EAttr (COr [CIn userQueueIds; CIsNull]) ]}
    else whereCondition in
  let whereCondition :=
    if given (status req) then
      <[KAttr "status" := EAttr (CEq (VStr (default "" (status req))))]> whereCondition
    else whereCondition in
  let sanitizedSearchParam := trim (toLocaleLowerCase searchParam) in
  let includeCondition :=
    if truthy searchParam
    then includeCondition ++ [include_messages sanitizedSearchParam]
    else includeCondition in
  let whereCondition :=
    if truthy searchParam
    then <[Op_or := search_or sanitizedSearchParam]> whereCondition
    else whereCondition in
  let* whereCondition :=
    if given (date req) then
      match parseISO (default "" (date req)) with
      | Some day => ret (<[KAttr "createdAt" := created_on day]> whereCondition)
      | None => throw ValidationError
      end
    else ret whereCondition in
  let whereCondition :=
    if is_true_flag (withUnreadMessages req) then
      let whereCondition :=
        <[KAttr "unreadMessages" := EAttr (CGt 0)]> whereCondition in
      if negb isAdmin && negb (is_true_flag (showAll req))
      then <[Op_or := own_or_pending (userId req)]> whereCondition
      else whereCondition
    else whereCondition in
  let limit := 40 in
  let offset := limit * (pageNumber - 1) in
  let* result :=
    Ticket_findAndCountAll
      {| where_ := whereCondition; include := includeCondition;
         distinct := true; limit := limit; offset := offset;
         order := [("updatedAt", DESC)] |} in
  let count := result.1 in
  let tickets := result.2 in
  let hasMore := bool_decide (count > offset + Z.of_nat (length tickets)) in
  ret {| tickets := tickets; count := count; hasMore := hasMore |}.

End Part000.

(** ** The query in closed form

    The [where] object a version ends with, written as a table from each key
    to the entry it finally holds, and the response as a function of the
    options. [Backend_run] and [Part000_run] below prove that the services
    compute exactly these. *)

Definition put (k : Key) (oe : option Entry) (w : gmap Key Entry) : gmap Key Entry :=
  match oe with Some e => <[k:=e]> w | None => w end.

Definition table (l : list (Key * option Entry)) : gmap Key Entry :=
  foldl (λ w p, put p.1 p.2 w) ∅ l.

(** An entry of a table holds of a row; an empty slot holds of every row. *)
Definition entry_holds (r : Row) (p : Key * option Entry) : bool :=
  match p.2 with Some e => eval_entry r p.1 e | None => true end.

Definition has_search (req : Request) : bool :=
  truthy (default "" (searchParam req)).

Definition sanitized (req : Request) : string :=
  trim (toLocaleLowerCase (default "" (searchParam req))).

Definition has_unread (req : Request) : bool :=
  is_true_flag (withUnreadMessages req).

Definition parsed_date (req : Request) : Error + option Z :=
  if given (date req) then
    match parseISO (default "" (date req)) with
    | Some day => inr (Some day)
    | None => inl ValidationError
    end
  else inr None.

Definition status_entry (req : Request) : option Entry :=
  if given (status req)
  then Some (EAttr (CEq (VStr (default "" (status req))))) else None.

Definition unread_entry (req : Request) : option Entry :=
  if has_unread req then Some (EAttr (CGt 0)) else None.

(** The queue ids of a non-elevated user, or the id no queue has. *)
Definition sentinel (qs : list Z) : list Z :=
  if bool_decide (length qs ≠ 0%nat) then qs else [-1].

Definition userQueueIds (u : User.t) : list Z :=
  Queue.id <$> default [] (User.queues u).

Definition Backend_where (req : Request) (u : User.t) (day : option Z)
  : gmap Key Entry :=
  let queueIds := default [] (queueIds req) in
  let effectiveQueueIds :=
    if bool_decide (0 < length queueIds)%nat then queueIds else userQueueIds u in
  table
    [ (KAttr "queueId",
        if Backend.isAdmin u then
          if bool_decide (0 < length effectiveQueueIds)%nat
          then Some (EAttr (CIn effectiveQueueIds)) else None
        else Some (EAttr (CIn (sentinel (userQueueIds u)))));
      (KAttr "status", status_entry req);
      (KAttr "createdAt", created_on <$> day);
      (KAttr "unreadMessages", unread_entry req);
      (Op_or,
        if has_search req then Some (search_or (sanitized req))
        else if is_true_flag (showAll req) then None
        else Some (own_or_pending (userId req))) ].

Definition Part000_where (req : Request) (u : User.t) (day : option Z)
  : gmap Key Entry :=
  table
    [ (KAttr "queueId",
        if Part000.isAdmin u then None
        else Some (EAttr (COr [CIn (userQueueIds u); CIsNull])));
      (KAttr "status", status_entry req);
      (KAttr "createdAt", created_on <$> day);
      (KAttr "unreadMessages", unread_entry req);
      (Op_or,
        if has_search req
           && negb (has_unread req && negb (Part000.isAdmin u)
                    && negb (is_true_flag (showAll req)))
        then Some (search_or (sanitized req))
        else if is_true_flag (showAll req) then None
        else Some (own_or_pending (userId req))) ].

Definition options_with (w : gmap Key Entry) (req : Request) : FindOptions :=
  {| where_ := w;
     include :=
       [include_contact; include_queue; include_whatsapp]
       ++ (if has_search req then [include_messages (sanitized req)] else []);
     distinct := true;
     limit := 40;
     offset := 40 * (default 1 (pageNumber req) - 1);
     order := [("updatedAt", DESC)] |}.

Definition respond (db : list Ticket.t) (o : FindOptions) : Response :=
  let result := find_and_count db o in
  {| tickets := result.2;
     count := result.1;
     hasMore := bool_decide (result.1 > offset o + Z.of_nat (length result.2)) |}.

(** What a run of either service amounts to, given the user found. *)
Definition outcome (w : option Z → gmap Key Entry) (req : Request) (st : Store)
  : (Error + Response) * list Event :=
  match parsed_date req with
  | inl e => (inl e, [CallShowUser (userId req)])
  | inr day =>
      let o := options_with (w day) req in
      (inr (respond (all_tickets st) o),
       [CallShowUser (userId req); CallFindAndCountAll o])
  end.

(** ** Vocabulary of the statements *)

(** Some joined row of the ticket satisfies the [where] object. *)
Definition ticket_matches (o : FindOptions) (t : Ticket.t) : Prop :=
  Exists (λ r, where_holds (where_ o) r = true) (joined_rows (include o) t).

Global Instance ticket_matches_dec o t : Decision (ticket_matches o t).
Proof. unfold ticket_matches. apply _. Defined.

(** Most recently updated first. *)
Definition newer_first (a b : Ticket.t) : Prop :=
  Ticket.updatedAt b ≤ Ticket.updatedAt a.

(** The ticket is in one of the queues [qs]. *)
Definition queue_in (qs : list Z) (t : Ticket.t) : Prop :=
  match Ticket.queueId t with Some q => q ∈ qs | None => False end.

(** The ticket is in one of the queues [qs], or in no queue. *)
Definition queue_in_or_null (qs : list Z) (t : Ticket.t) : Prop :=
  match Ticket.queueId t with Some q => q ∈ qs | None => True end.

(** Queue ids are positive (they are auto-incremented keys), so that [-1]
    is the id of no queue. *)
Definition queue_ids_positive (st : Store) : Prop :=
  Forall (λ t, match Ticket.queueId t with Some q => 0 < q | None => True end)
    (all_tickets st).

(** The page and the count a run returned; nothing on a failed run. *)
Definition returned (res : (Error + Response) * list Event) : list Ticket.t :=
  match res.1 with inr resp => tickets resp | inl _ => [] end.

Definition counted (res : (Error + Response) * list Event) : Z :=
  match res.1 with inr resp => count resp | inl _ => 0 end.

(** The options of the [findAndCountAll] call a run issued, if it issued one. *)
Definition issued (res : (Error + Response) * list Event) : option FindOptions :=
  match res.2 with
  | [CallShowUser _; CallFindAndCountAll o] => Some o
  | _ => None
  end.

(** "An ordinary user can never see tickets outside their queues": every
    ticket of the page is in a queue assigned to the user, and a user with no
    queue gets nothing. *)
Definition queue_scoped (isAdmin : User.t → bool)
    (service : Request → Async Response) : Prop :=
  ∀ st req u,
    queue_ids_positive st →
    users st !! userId req = Some u →
    isAdmin u = false →
    Forall (queue_in (userQueueIds u)) (returned (run (service req) st))
    ∧ (userQueueIds u = [] →
       returned (run (service req) st) = []
       ∧ counted (run (service req) st) = 0).

(** The ticket is owned by the acting user or is pending. *)
Definition mine_or_pending (userId : Z) (t : Ticket.t) : Prop :=
  Ticket.userId t = Some userId ∨ Ticket.status t = "pending".

Definition with_queueIds (qs : option (list Z)) (req : Request) : Request :=
  {| searchParam := searchParam req; pageNumber := pageNumber req;
     status := status req; date := date req; showAll := showAll req;
     userId := userId req; withUnreadMessages := withUnreadMessages req;
     queueIds := qs |}.

Definition with_searchParam (s : option string) (req : Request) : Request :=
  {| searchParam := s; pageNumber := pageNumber req;
     status := status req; date := date req; showAll := showAll req;
     userId := userId req; withUnreadMessages := withUnreadMessages req;
     queueIds := queueIds req |}.

Definition with_date (d : option string) (req : Request) : Request :=
  {| searchParam := searchParam req; pageNumber := pageNumber req;
     status := status req; date := d; showAll := showAll req;
     userId := userId req; withUnreadMessages := withUnreadMessages req;
     queueIds := queueIds req |}.

Definition with_unread (f : option string) (req : Request) : Request :=
  {| searchParam := searchParam req; pageNumber := pageNumber req;
     status := status req; date := date req; showAll := showAll req;
     userId := userId req; withUnreadMessages := f;
     queueIds := queueIds req |}.

Definition with_queue (q : option Z) (t : Ticket.t) : Ticket.t :=
  Ticket.mk (Ticket.id t) (Ticket.status t) (Ticket.unreadMessages t)
    (Ticket.userId t) q (Ticket.contact t) (Ticket.createdAt t)
    (Ticket.updatedAt t) (Ticket.messages t).

(** The query puts no restriction on the queue: it has no [queueId] entry,
    and moving a ticket to another queue (or to none) does not change
    whether a row of it is selected. *)
Definition queue_blind (o : FindOptions) : Prop :=
  where_ o !! KAttr "queueId" = None
  ∧ ∀ t m q, where_holds (where_ o) (with_queue q t, m)
             = where_holds (where_ o) (t, m).

(** "Elevated-user queue override": with a non-empty [queueIds] the page
    lies within these queues; with none, no queue restriction is applied. *)
Definition elevated_queue_filter (isAdmin : User.t → bool)
    (service : Request → Async Response) : Prop :=
  ∀ st req u,
    users st !! userId req = Some u →
    isAdmin u = true →
    (default [] (queueIds req) ≠ [] →
       Forall (queue_in (default [] (queueIds req)))
         (returned (run (service req) st)))
    ∧ (default [] (queueIds req) = [] →
       ∀ o, issued (run (service req) st) = Some o → queue_blind o).



(** ** Sample data *)

Definition request (userId : Z) : Request :=
  {| searchParam := None; pageNumber := None; status := None; date := None;
     showAll := None; userId := userId; withUnreadMessages := None;
     queueIds := None |}.

Definition ticket (id : Z) (status : string) (owner queue : option Z)
    (name : string) : Ticket.t :=
  Ticket.mk id status 0 owner queue (Contact.mk id name "5511999990000") 0 id [].

(** An agent without queues, and one pending ticket that is in no queue. *)
Definition store_no_queue : Store :=
  {| users := {[ 5 := User.mk 5 "user" (Some []) ]};
     all_tickets := [ticket 1 "pending" None None "Ana"] |}.

(** An agent of queue 1; a ticket of that queue and one of queue 2. *)
Definition agent5 : User.t := User.mk 5 "user" (Some [Queue.mk 1 "support"]).

Definition store_two_queues : Store :=
  {| users := {[ 5 := agent5 ]};
     all_tickets := [ticket 1 "pending" None (Some 1) "Ana";
                     ticket 2 "pending" None (Some 2) "Bruno"] |}.

(** An open ticket of queue 1 that agent 7 owns. *)
Definition maria : Ticket.t := ticket 1 "open" (Some 7) (Some 1) "Maria Silva".

Definition store_other_owner : Store :=
  {| users := {[ 5 := agent5 ]}; all_tickets := [maria] |}.

(** An admin without queues, and a pending ticket of queue 9. *)
Definition admin1 : User.t := User.mk 1 "admin" (Some []).

Definition store_admin : Store :=
  {| users := {[ 1 := admin1 ]};
     all_tickets := [ticket 1 "pending" None (Some 9) "Ana"] |}.

(** A superadmin without queues, and a pending ticket of queue 2. *)
Definition root1 : User.t := User.mk 1 "superadmin" (Some []).

Definition store_superadmin : Store :=
  {| users := {[ 1 := root1 ]};
     all_tickets := [ticket 1 "pending" None (Some 2) "Ana"] |}.

(** Agent 5 searches. *)
Definition search_maria : Request := with_searchParam (Some "maria") (request 5).


Definition search_blank : Request := with_searchParam (Some " ") (request 5).

Definition search_empty : Request := with_searchParam (Some "") (request 5).

Definition search_unread : Request :=
  with_unread (Some "true") (with_searchParam (Some "zebra") (request 5)).

(** An admin of queue 1, and a pending ticket of queue 9. *)
Definition store_admin_queue : Store :=
  {| users := {[ 1 := User.mk 1 "admin" (Some [Queue.mk 1 "support"]) ]};
     all_tickets := [ticket 1 "pending" None (Some 9) "Ana"] |}.

(** A ticket with three messages, two of which contain "oi". *)
Definition chatty : Ticket.t :=
  Ticket.mk 1 "pending" 2 None (Some 1) (Contact.mk 1 "Ana" "5511999990000") 0 1
    [Message.mk 1 "oi"; Message.mk 2 "tudo bem?"; Message.mk 3 "Oi de novo"].

Definition store_chatty : Store :=
  {| users := {[ 5 := agent5 ]}; all_tickets := [chatty] |}.

(** ** Vocabulary of the further properties *)

(** The ticket was created on the day of [day]. *)
Definition created_within (day : Z) (t : Ticket.t) : Prop :=
  startOfDay day ≤ Ticket.createdAt t ≤ endOfDay day.

Definition with_status (s : option string) (req : Request) : Request :=
  {| searchParam := searchParam req; pageNumber := pageNumber req;
     status := s; date := date req; showAll := showAll req;
     userId := userId req; withUnreadMessages := withUnreadMessages req;
     queueIds := queueIds req |}.

(** Agent 5 of queue 1 and three tickets of that queue: a pending one with
    unread messages created on 2024-05-01, an open one of agent 5 created the
    day after, and a closed one of agent 5 with an unread message. *)
Definition store_mixed : Store :=
  {| users := {[ 5 := agent5 ]};
     all_tickets :=
       [Ticket.mk 1 "pending" 2 None (Some 1)
          (Contact.mk 1 "Ana" "5511999990001") 1714521600005 30 [];
        Ticket.mk 2 "open" 0 (Some 5) (Some 1)
          (Contact.mk 2 "Bruno" "5511999990002") 1714608000001 20 [];
        Ticket.mk 3 "closed" 1 (Some 5) (Some 1)
          (Contact.mk 3 "Carla" "5511999990003") 1714521600000 10 []] |}.

(** The search text [s] is found in the ticket: in the lower-cased name of
    its contact, in the number of its contact, or in the lower-cased body of
    one of its messages. *)
Definition searched (s : string) (t : Ticket.t) : Prop :=
  like (like_pattern s) (toLocaleLowerCase (Contact.name (Ticket.contact t))) = true
  ∨ like (like_pattern s) (Contact.number (Ticket.contact t)) = true
  ∨ ∃ m, m ∈ Ticket.messages t
         ∧ like (like_pattern s) (toLocaleLowerCase (Message.body m)) = true.

(** The queue, status, date and unread clauses of ListTicketsService.ts. *)
Definition Backend_filters (req : Request) (u : User.t) (day : option Z)
    (t : Ticket.t) : Prop :=
  let queueIds := default [] (queueIds req) in
  let effectiveQueueIds :=
    if bool_decide (0 < length queueIds)%nat then queueIds else userQueueIds u in
  (if Backend.isAdmin u then effectiveQueueIds = [] ∨ queue_in effectiveQueueIds t
   else queue_in (sentinel (userQueueIds u)) t)
  ∧ (given (status req) = true → Ticket.status t = default "" (status req))
  ∧ (∀ d, day = Some d → created_within d t)
  ∧ (has_unread req = true → 0 < Ticket.unreadMessages t).

(** The tickets ListTicketsService.ts selects: these clauses, and the search
    when there is a search text, the ownership rule when there is none. *)
Definition Backend_selects (req : Request) (u : User.t) (day : option Z)
    (t : Ticket.t) : Prop :=
  Backend_filters req u day t
  ∧ (if has_search req then searched (sanitized req) t
     else is_true_flag (showAll req) = true ∨ mine_or_pending (userId req) t).

(** The tickets part_000 selects: the queue clause of a non-admin user, the
    filters, and the search or the ownership rule; the unread step puts the
    ownership rule back for a non-admin user without showAll. *)
Definition Part000_selects (req : Request) (u : User.t) (day : option Z)
    (t : Ticket.t) : Prop :=
  (Part000.isAdmin u = false → queue_in_or_null (userQueueIds u) t)
  ∧ (given (status req) = true → Ticket.status t = default "" (status req))
  ∧ (∀ d, day = Some d → created_within d t)
  ∧ (has_unread req = true → 0 < Ticket.unreadMessages t)
  ∧ (if has_search req
        && negb (has_unread req && negb (Part000.isAdmin u)
                 && negb (is_true_flag (showAll req)))
     then searched (sanitized req) t
     else is_true_flag (showAll req) = true ∨ mine_or_pending (userId req) t).

(** A text without the wildcards of [LIKE]. *)
Definition plain (s : string) : bool :=
  forallb (λ c, negb (bool_decide (c = "%"%char)) && negb (bool_decide (c = "_"%char)))
    (list_ascii_of_string s).

(** A text made of the wildcard [%] only. *)
Definition percents (s : string) : bool :=
  forallb (λ c, bool_decide (c = "%"%char)) (list_ascii_of_string s).

(** [s] occurs in [x]. *)
Definition contains (s x : string) : Prop := ∃ a b, x = a +:+ s +:+ b.

(** [s] occurs in the lower-cased contact name, in the contact number or in
    the lower-cased body of a message of the ticket. *)
Definition found (s : string) (t : Ticket.t) : Prop :=
  contains s (toLocaleLowerCase (Contact.name (Ticket.contact t)))
  ∨ contains s (Contact.number (Ticket.contact t))
  ∨ ∃ m, m ∈ Ticket.messages t ∧ contains s (toLocaleLowerCase (Message.body m)).

(** The [hasMore] flag a run returned. *)
Definition has_more (res : (Error + Response) * list Event) : bool :=
  match res.1 with inr resp => hasMore resp | inl _ => false end.

(** The run has returned the page of the request out of the matching tickets
    of [db], most recently updated first, 40 to a page, and [hasMore] says
    whether tickets are left after it. *)
Definition page_of_matching (db : list Ticket.t) (req : Request)
    (res : (Error + Response) * list Event) : Prop :=
  let page := default 1 (pageNumber req) in
  ∃ o sorted,
    issued res = Some o
    ∧ sorted ≡ₚ filter (ticket_matches o) db
    ∧ StronglySorted newer_first sorted
    ∧ returned res = take 40 (drop (Z.to_nat (40 * (page - 1))) sorted)
    ∧ counted res = Z.of_nat (length sorted)
    ∧ (has_more res = true ↔ (Z.to_nat (40 * page) < length sorted)%nat).

(** Every ticket of the store is in a queue. *)
Definition all_queued (st : Store) : Prop :=
  Forall (λ t, match Ticket.queueId t with Some q => 0 < q | None => False end)
    (all_tickets st).

(** * Properties *)

(** ** Strings and [LIKE] *)

Lemma like_percent s : like "%" s = true.
Proof. induction s as [|c s IH]; simpl in *; [done|]. by rewrite IH. Qed.

Lemma like_percent_percent s : like (like_pattern "") s = true.
Proof.
  change (like_pattern "") with "%%".
  destruct s as [|c s]; simpl; [done|].
  pose proof (like_percent (String c s)) as H. simpl in H. by rewrite H.
Qed.

Lemma lower_ascii_space c : Ascii.is_space c = true → lower_ascii c = c.
Proof. destruct c as [[] [] [] [] [] [] [] []]; by vm_compute. Qed.

Lemma toLocaleLowerCase_white s : white s = true → toLocaleLowerCase s = s.
Proof.
  unfold white. induction s as [|c s IH]; simpl; [done|].
  intros [Hc Hs]%andb_true_iff. by rewrite lower_ascii_space, IH.
Qed.

Lemma trimStart_white s : white s = true → trimStart s = "".
Proof.
  unfold white. induction s as [|c s IH]; simpl; [done|].
  intros [Hc Hs]%andb_true_iff. rewrite Hc. auto.
Qed.

Lemma sanitized_white s : white s = true → trim (toLocaleLowerCase s) = "".
Proof.
  intros H. rewrite toLocaleLowerCase_white by done.
  unfold trim. by rewrite trimStart_white.
Qed.

(** ** [where] objects *)

Lemma where_holds_lookup w r k e :
  where_holds w r = true → w !! k = Some e → eval_entry r k e = true.
Proof.
  unfold where_holds. intros H%bool_decide_eq_true Hk.
  exact (map_Forall_lookup_1 _ _ _ _ H Hk).
Qed.

Lemma where_holds_empty r : where_holds ∅ r = true.
Proof. apply bool_decide_eq_true, map_Forall_empty. Qed.

Lemma where_holds_insert w r k e :
  where_holds (<[k:=e]> w) r = eval_entry r k e && where_holds (delete k w) r.
Proof.
  unfold where_holds. rewrite <- insert_delete_eq.
  apply eq_true_iff_eq.
  rewrite andb_true_iff, !bool_decide_eq_true.
  rewrite map_Forall_insert by apply lookup_delete_eq. done.
Qed.

(** ** The store *)

Lemma elem_of_group_by_id seen l t : t ∈ group_by_id seen l → t ∈ l.
Proof.
  revert seen. induction l as [|a l IH]; intros seen; simpl; [done|].
  case_bool_decide; [|intros [->|?]%elem_of_cons]; set_solver.
Qed.

Lemma joined_rows_fst inc t r : r ∈ joined_rows inc t → r.1 = t.
Proof.
  unfold joined_rows.
  destruct (List.find _ inc) as [i|]; [|by intros ->%list_elem_of_singleton].
  destruct (filter _ _) as [|m ms].
  - destruct (is_required i); [by intros ?%elem_of_nil|].
    by intros ->%list_elem_of_singleton.
  - by intros (m' & -> & _)%list_elem_of_fmap.
Qed.

Lemma elem_of_matching_rows db o r :
  r ∈ matching_rows db o → r.1 ∈ db ∧ where_holds (where_ o) r = true.
Proof.
  unfold matching_rows. intros [Hw H]%list_elem_of_filter.
  apply list_elem_of_In, in_flat_map in H as (t & Ht & Hr). split; [|done].
  apply list_elem_of_In in Ht, Hr.
  rewrite (joined_rows_fst _ _ _ Hr).
  by rewrite merge_sort_Permutation in Ht.
Qed.

(** Every ticket of the page is a ticket of the store, and one of its joined
    rows satisfies the [where] object. *)
Lemma elem_of_page db o t :
  t ∈ (find_and_count db o).2 →
  t ∈ db ∧ ∃ m, where_holds (where_ o) (t, m) = true.
Proof.
  unfold find_and_count. simpl. intros H%elem_of_group_by_id.
  apply list_elem_of_fmap in H as ([t' m] & -> & H).
  apply subseteq_take, subseteq_drop, elem_of_matching_rows in H as [? ?].
  eauto.
Qed.

(** ** The services in closed form *)

Lemma bind_ret {A B} (a : A) (k : A → Async B) : bind (ret a) k = k a.
Proof. done. Qed.

Lemma bind_throw {A B} (e : Error) (k : A → Async B) : bind (throw e) k = throw e.
Proof. done. Qed.

Lemma bind_assoc {A B C} (c : Async A) (f : A → Async B) (g : B → Async C) st log :
  bind (bind c f) g st log = bind c (λ a, bind (f a) g) st log.
Proof. unfold bind. by destruct (c st log) as [[e|a] log']. Qed.

Lemma run_ShowUserService {B} id (k : User.t → Async B) st u :
  users st !! id = Some u →
  run (bind (ShowUserService id) k) st = k u st [CallShowUser id].
Proof. intros Hu. unfold run, bind, ShowUserService. by rewrite Hu. Qed.

Lemma run_user_missing {B} id (k : User.t → Async B) st :
  users st !! id = None →
  run (bind (ShowUserService id) k) st = (inl NotFound, [CallShowUser id]).
Proof. intros Hu. unfold run, bind, ShowUserService. by rewrite Hu. Qed.

(** Two insertion chains over the same keys are compared by moving the
    [Op.or] entries outwards and letting the later one win. *)
Ltac chain_eq :=
  unfold table, put; cbn [foldl fst snd fmap option_fmap option_map];
  rewrite <- ?insert_empty;
  rewrite ?(insert_insert_ne _ (KAttr "status") Op_or),
          ?(insert_insert_ne _ (KAttr "createdAt") Op_or),
          ?(insert_insert_ne _ (KAttr "unreadMessages") Op_or),
          ?insert_insert_eq by done;
  reflexivity.

Ltac split_flags req :=
  destruct (given (date req)); [destruct (parseISO _) as [day|]|];
  destruct (is_true_flag (showAll req));
  destruct (given (status req));
  destruct (is_true_flag (withUnreadMessages req));
  destruct (default "" (searchParam req)) as [|c sp];
  cbn beta iota zeta delta [andb negb app truthy];
  rewrite ?bind_ret, ?bind_throw.

Ltac same_where :=
  match goal with
  | |- bind (Ticket_findAndCountAll {| where_ := ?a |}) _ _ _
       = (inr (respond _ {| where_ := ?b |}), _) =>
      assert (a = b) as ->; [|done]
  end.

Lemma default_userQueueIds (u : User.t) :
  default [] ((λ qs : list Queue.t, Queue.id <$> qs) <$> User.queues u)
  = userQueueIds u.
Proof. unfold userQueueIds. by destruct (User.queues u). Qed.

Lemma Backend_run req st u :
  users st !! userId req = Some u →
  run (Backend.ListTicketsService req) st = outcome (Backend_where req u) req st.
Proof.
  intros Hu. unfold Backend.ListTicketsService.
  rewrite (run_ShowUserService _ _ _ _ Hu).
  unfold outcome, parsed_date, Backend_where, options_with, userQueueIds,
    status_entry, unread_entry, has_search, sanitized, has_unread, sentinel.
  destruct (Backend.isAdmin u); split_flags req; try done.
  all: same_where; repeat case_bool_decide; chain_eq.
Qed.

Lemma Part000_run req st u :
  users st !! userId req = Some u →
  run (Part000.ListTicketsService req) st = outcome (Part000_where req u) req st.
Proof.
  intros Hu. unfold Part000.ListTicketsService.
  rewrite (run_ShowUserService _ _ _ _ Hu), default_userQueueIds.
  unfold outcome, parsed_date, Part000_where, options_with,
    status_entry, unread_entry, has_search, sanitized, has_unread.
  destruct (Part000.isAdmin u); split_flags req; try done.
  all: same_where; chain_eq.
Qed.

Lemma Backend_run_missing req st :
  users st !! userId req = None →
  run (Backend.ListTicketsService req) st = (inl NotFound, [CallShowUser (userId req)]).
Proof. apply run_user_missing. Qed.

Lemma Part000_run_missing req st :
  users st !! userId req = None →
  run (Part000.ListTicketsService req) st = (inl NotFound, [CallShowUser (userId req)]).
Proof. apply run_user_missing. Qed.

(** ** The scenarios of the specification *)

(** "given a ticket with contact name "Maria Silva" and search text "MARIA ",
    the ticket is returned (case-insensitive, trimmed)". *)
Example search_scenario :
  returned (run (Backend.ListTicketsService
                   (with_searchParam (Some "MARIA ") (request 5)))
              store_other_owner) = [maria]
  ∧ returned (run (Part000.ListTicketsService
                     (with_searchParam (Some "MARIA ") (request 5)))
                store_other_owner) = [maria].
Proof. by vm_compute. Qed.

(** "given date "2024-05-01", a ticket created at the last millisecond of
    2024-05-01 is included; one created one millisecond after midnight
    2024-05-02 is excluded". *)
Example date_scenario :
  parseISO "2024-05-01" = Some 1714521600000
  ∧ created_on 1714521600000 = EAttr (CBetween 1714521600000 1714607999999)
  ∧ parseISO "2024-02-30" = None
  ∧ parseISO "01/05/2024" = None.
Proof. by vm_compute. Qed.


Lemma outcome_query w req st res log o :
  outcome w req st = (res, log) →
  CallFindAndCountAll o ∈ log →
  ∃ day, parsed_date req = inr day ∧ o = options_with (w day) req
    ∧ res = inr (respond (all_tickets st) o).
Proof.
  unfold outcome. destruct (parsed_date req) as [e|day]; intros [= <- <-] Ho.
  - apply list_elem_of_singleton in Ho. done.
  - apply elem_of_cons in Ho as [?|Ho]; [done|].
    apply list_elem_of_singleton in Ho as [= ->]. eauto.
Qed.

(** ** Tables *)

Lemma lookup_put_eq k oe (w : gmap Key Entry) :
  put k oe w !! k = match oe with Some e => Some e | None => w !! k end.
Proof. destruct oe; simpl; [apply lookup_insert_eq|done]. Qed.

Lemma lookup_put_ne k k' oe (w : gmap Key Entry) :
  k ≠ k' → put k oe w !! k' = w !! k'.
Proof. intros. destruct oe; simpl; [by apply lookup_insert_ne|done]. Qed.

Lemma table_snoc l p : table (l ++ [p]) = put p.1 p.2 (table l).
Proof. unfold table. by rewrite foldl_app. Qed.

Lemma lookup_table_None l k : k ∉ l.*1 → table l !! k = None.
Proof.
  induction l as [|p l IH] using rev_ind; [done|].
  rewrite fmap_app, table_snoc. simpl. intros Hk.
  rewrite lookup_put_ne by set_solver. apply IH. set_solver.
Qed.

Lemma lookup_table l k oe :
  NoDup l.*1 → (k, oe) ∈ l → table l !! k = oe.
Proof.
  induction l as [|p l IH] using rev_ind; [by intros _ ?%elem_of_nil|].
  rewrite fmap_app, table_snoc. simpl.
  intros [Hl [Hp _]]%NoDup_app [Hk| <-%list_elem_of_singleton]%elem_of_app.
  - rewrite lookup_put_ne; [by apply IH|].
    intros Heq. apply (Hp k); [|rewrite Heq; set_solver].
    apply list_elem_of_fmap. by exists (k, oe).
  - simpl. rewrite lookup_put_eq. destruct oe; [done|].
    apply lookup_table_None. intros ?. apply (Hp k); set_solver.
Qed.

Lemma where_holds_table l r :
  NoDup l.*1 → where_holds (table l) r = forallb (entry_holds r) l.
Proof.
  induction l as [|p l IH] using rev_ind; [intros; apply where_holds_empty|].
  rewrite fmap_app, table_snoc, forallb_app. simpl.
  intros [Hl [Hp _]]%NoDup_app. rewrite <- IH, andb_true_r by done.
  unfold entry_holds, put. destruct p as [k [e|]]; simpl;
    [|by rewrite andb_true_r].
  rewrite where_holds_insert, andb_comm. rewrite delete_id; [done|].
  apply lookup_table_None. intros ?. apply (Hp k); set_solver.
Qed.

Lemma keys_NoDup (a b c d e : option Entry) :
  NoDup [(KAttr "queueId", a); (KAttr "status", b); (KAttr "createdAt", c);
         (KAttr "unreadMessages", d); (Op_or, e)].*1.
Proof. simpl. repeat (constructor; [set_solver|]). constructor. Qed.

(** ** Queue clauses *)

Ltac table_lookup :=
  erewrite lookup_table;
  [reflexivity
  |apply keys_NoDup
  |repeat first [apply list_elem_of_here | apply list_elem_of_further]].

Lemma Backend_where_queueId req u day :
  Backend_where req u day !! KAttr "queueId" =
    let queueIds := default [] (queueIds req) in
    let effectiveQueueIds :=
      if bool_decide (0 < length queueIds)%nat then queueIds else userQueueIds u in
    if Backend.isAdmin u then
      if bool_decide (0 < length effectiveQueueIds)%nat
      then Some (EAttr (CIn effectiveQueueIds)) else None
    else Some (EAttr (CIn (sentinel (userQueueIds u)))).
Proof. unfold Backend_where. cbn zeta. table_lookup. Qed.

Lemma Part000_where_queueId req u day :
  Part000_where req u day !! KAttr "queueId" =
    if Part000.isAdmin u then None
    else Some (EAttr (COr [CIn (userQueueIds u); CIsNull])).
Proof. unfold Part000_where. table_lookup. Qed.

Lemma eval_queue_in r l :
  eval_entry r (KAttr "queueId") (EAttr (CIn l)) = true → queue_in l r.1.
Proof.
  unfold queue_in. cbn. destruct (Ticket.queueId r.1); cbn; [|done].
  by intros ?%bool_decide_eq_true.
Qed.

Lemma eval_queue_in_or_null r l :
  eval_entry r (KAttr "queueId") (EAttr (COr [CIn l; CIsNull])) = true →
  queue_in_or_null l r.1.
Proof.
  unfold queue_in_or_null. cbn. destruct (Ticket.queueId r.1); cbn; [|done].
  rewrite !orb_false_r. by intros ?%bool_decide_eq_true.
Qed.

Lemma eval_queue_null r l :
  Ticket.queueId r.1 = None →
  eval_entry r (KAttr "queueId") (EAttr (COr [CIn l; CIsNull])) = true.
Proof. intros H. cbn. by rewrite H. Qed.

Lemma find_and_count_none db o :
  (∀ r, r.1 ∈ db → where_holds (where_ o) r = false) →
  find_and_count db o = (0, []).
Proof.
  intros H. unfold find_and_count.
  assert (matching_rows db o = []) as ->.
  { destruct (matching_rows db o) as [|r l] eqn:E; [done|].
    destruct (elem_of_matching_rows db o r) as [Hr Hw]; [rewrite E; left|].
    by rewrite H in Hw. }
  rewrite drop_nil, take_nil. by destruct (distinct o).
Qed.

Lemma page_Forall db o (P : Ticket.t → Prop) :
  (∀ t m, t ∈ db → where_holds (where_ o) (t, m) = true → P t) →
  Forall P (find_and_count db o).2.
Proof.
  intros H. apply Forall_forall. intros t (Ht & m & Hm)%elem_of_page. eauto.
Qed.

Lemma sentinel_nil : sentinel [] = [-1].
Proof. done. Qed.

Lemma sentinel_cons q qs : sentinel (q :: qs) = q :: qs.
Proof. done. Qed.

Lemma queue_in_sentinel st qs t :
  queue_ids_positive st → t ∈ all_tickets st →
  queue_in (sentinel qs) t → queue_in qs t ∧ qs ≠ [].
Proof.
  unfold queue_ids_positive, queue_in. rewrite Forall_forall.
  intros Hpos Ht. specialize (Hpos t Ht).
  destruct (Ticket.queueId t) as [q|]; [|done].
  destruct qs as [|q' qs]; [|done].
  rewrite sentinel_nil. intros ->%list_elem_of_singleton. lia.
Qed.

Lemma returned_outcome w req st :
  returned (outcome w req st) =
    match parsed_date req with
    | inl _ => []
    | inr day => (find_and_count (all_tickets st) (options_with (w day) req)).2
    end.
Proof. unfold outcome. by destruct (parsed_date req). Qed.

Lemma counted_outcome w req st :
  counted (outcome w req st) =
    match parsed_date req with
    | inl _ => 0
    | inr day => (find_and_count (all_tickets st) (options_with (w day) req)).1
    end.
Proof. unfold outcome. by destruct (parsed_date req). Qed.

(** Backend: the page of an ordinary user lies within the user's queues. *)
Lemma Backend_queue_scoped : queue_scoped Backend.isAdmin Backend.ListTicketsService.
Proof.
  intros st req u Hpos Hu Ha.
  rewrite (Backend_run _ _ _ Hu), returned_outcome, counted_outcome.
  destruct (parsed_date req) as [e|day]; [done|].
  set (o := options_with (Backend_where req u day) req).
  assert (∀ t m, t ∈ all_tickets st → where_holds (where_ o) (t, m) = true →
            queue_in (userQueueIds u) t ∧ userQueueIds u ≠ []) as H.
  { intros t m Ht Hw. apply (queue_in_sentinel st); [done..|].
    apply (eval_queue_in (t, m)), (where_holds_lookup _ _ _ _ Hw).
    subst o. cbn [where_ options_with]. by rewrite Backend_where_queueId, Ha. }
  split.
  - apply page_Forall. intros t m Ht Hw. by destruct (H t m).
  - intros Hnil. rewrite find_and_count_none; [done|].
    intros [t m] Ht. apply not_true_is_false. intros Hw.
    by destruct (H t m Ht Hw).
Qed.

Lemma Part000_queue_or_null st req u :
  users st !! userId req = Some u →
  Part000.isAdmin u = false →
  Forall (queue_in_or_null (userQueueIds u))
    (returned (run (Part000.ListTicketsService req) st)).
Proof.
  intros Hu Ha. rewrite (Part000_run _ _ _ Hu), returned_outcome.
  destruct (parsed_date req) as [e|day]; [done|].
  apply page_Forall. intros t m Ht Hw.
  apply (eval_queue_in_or_null (t, m)), (where_holds_lookup _ _ _ _ Hw).
  cbn [where_ options_with]. by rewrite Part000_where_queueId, Ha.
Qed.

(** ** The queue scope of ordinary users (C1) *)

(** C1, as stated, fails on src/unnamed/part_000: an ordinary user with no
    assigned queue is returned the pending ticket that is in no queue. *)
Lemma Part000_not_queue_scoped :
  ¬ queue_scoped Part000.isAdmin Part000.ListTicketsService.
Proof.
  intros H.
  destruct (H store_no_queue (request 5) (User.mk 5 "user" (Some []))) as [_ H'].
  - by repeat constructor.
  - by vm_compute.
  - done.
  - destruct H' as [H' _]; [done|]. by vm_compute in H'.
Qed.

(** C1 (amended): for an ordinary user the version of ListTicketsService.ts
    returns only tickets whose queue is one of the user's assigned queues,
    and nothing at all when the user has no queue, whatever the other
    parameters are (queue ids of the store being positive). The version of
    part_000 returns only tickets that are in one of the user's queues or in
    no queue. *)
Theorem ordinary_user_queue_scope st req u :
  queue_ids_positive st →
  users st !! userId req = Some u →
  (Backend.isAdmin u = false →
     Forall (queue_in (userQueueIds u))
       (returned (run (Backend.ListTicketsService req) st))
     ∧ (userQueueIds u = [] →
        returned (run (Backend.ListTicketsService req) st) = []
        ∧ counted (run (Backend.ListTicketsService req) st) = 0))
  ∧ (Part000.isAdmin u = false →
     Forall (queue_in_or_null (userQueueIds u))
       (returned (run (Part000.ListTicketsService req) st))).
Proof.
  intros Hpos Hu. split; intros Ha.
  - by apply Backend_queue_scoped.
  - by apply Part000_queue_or_null.
Qed.

Lemma ordinary_user_queue_scope_witness :
  Forall (queue_in [1])
    (returned (run (Backend.ListTicketsService (request 5)) store_two_queues))
  ∧ Forall (queue_in_or_null [1])
      (returned (run (Part000.ListTicketsService (request 5)) store_two_queues)).
Proof.
  destruct (ordinary_user_queue_scope store_two_queues (request 5) agent5)
    as [HB HP].
  - repeat constructor; simpl; lia.
  - by vm_compute.
  - split; [apply HB|apply HP]; reflexivity.
Defined.

(** ** The store: order, size and count of a page *)

Global Instance order_rel_total o : Total (order_rel o).
Proof. intros a b. destruct o as [|[c []] ?]; simpl; [by left|lia..]. Qed.

Global Instance order_rel_trans o : Transitive (order_rel o).
Proof. intros a b c. destruct o as [|[k []] ?]; simpl; [done|lia..]. Qed.

Global Instance order_rel_refl o : Reflexive (order_rel o).
Proof. intros a. destruct o as [|[k []] ?]; simpl; [done|lia..]. Qed.

Lemma StronglySorted_sublist {A} (R : relation A) (l k : list A) :
  l `sublist_of` k → StronglySorted R k → StronglySorted R l.
Proof.
  induction 1 as [|x l k Hs IH|x l k Hs IH]; intros Hk; [constructor|..].
  - apply StronglySorted_inv in Hk as [Hk Hx]. constructor; [by apply IH|].
    eapply Forall_forall. intros y Hy. rewrite Forall_forall in Hx.
    apply Hx. by eapply sublist_subseteq.
  - apply StronglySorted_inv in Hk as [Hk _]. by apply IH.
Qed.








Lemma group_by_id_skip seen xs rest :
  Forall (λ x, Ticket.id x ∈ seen) xs →
  group_by_id seen (xs ++ rest) = group_by_id seen rest.
Proof.
  induction 1 as [|x xs Hx _ IH]; simpl; [done|]. by rewrite bool_decide_true.
Qed.

Lemma group_by_id_block seen t xs rest :
  xs ≠ [] → Forall (λ x, x = t) xs →
  group_by_id seen (xs ++ rest) = group_by_id seen (t :: rest).
Proof.
  intros Hne Hxs. destruct Hxs as [|x xs -> Hxs]; [done|]. simpl.
  case_bool_decide.
  - apply group_by_id_skip. eapply Forall_impl; [exact Hxs|]. by intros ? ->.
  - f_equal. apply group_by_id_skip.
    eapply Forall_impl; [exact Hxs|]. intros ? ->. left.
Qed.

Lemma group_by_id_rows seen w inc l :
  group_by_id seen
    ((filter (λ r, where_holds w r = true) (flat_map (joined_rows inc) l)).*1)
  = group_by_id seen
      (filter (λ t, Exists (λ r, where_holds w r = true) (joined_rows inc t)) l).
Proof.
  revert seen. induction l as [|t l IH]; intros seen; [done|].
  cbn [flat_map]. rewrite filter_app, fmap_app, filter_cons.
  set (xs := filter _ (joined_rows inc t)).
  assert (Forall (λ y, y = t) xs.*1) as Hb.
  { apply Forall_forall. intros y (r & -> & Hr)%list_elem_of_fmap.
    apply list_elem_of_filter in Hr as [_ Hr]. by apply joined_rows_fst in Hr. }
  case_decide as Hex.
  - rewrite (group_by_id_block seen t); [|..|done].
    + simpl. case_bool_decide; [apply IH|f_equal; apply IH].
    + apply Exists_exists in Hex as (r & Hr & Hw).
      assert (r ∈ xs) as Hin by by apply list_elem_of_filter.
      intros Hnil. destruct xs; [by apply elem_of_nil in Hin|done].
  - assert (xs = []) as ->; [|apply IH].
    destruct xs as [|r xs'] eqn:E; [done|]. destruct Hex.
    assert (r ∈ filter (λ r, where_holds w r = true) (joined_rows inc t)) as Hin
      by (fold xs; rewrite E; left).
    apply list_elem_of_filter in Hin as [? ?]. apply Exists_exists. eauto.
Qed.

Lemma group_by_id_NoDup seen l :
  NoDup (Ticket.id <$> l) → Forall (λ t, Ticket.id t ∉ seen) l →
  group_by_id seen l = l.
Proof.
  revert seen. induction l as [|t l IH]; intros seen; simpl; [done|].
  intros [Ht Hl]%NoDup_cons [Hs Hall]%Forall_cons.
  rewrite bool_decide_false by done. f_equal. apply IH; [done|].
  apply Forall_forall. intros t' Ht'. rewrite Forall_forall in Hall.
  intros [Heq|?]%elem_of_cons; [|by apply (Hall t')].
  apply Ht, list_elem_of_fmap. by exists t'.
Qed.

(** With [distinct], the count is the number of tickets of the store that
    match, however many rows each of them has in the join. *)
Lemma count_distinct db o :
  distinct o = true →
  NoDup (Ticket.id <$> db) →
  (find_and_count db o).1 = Z.of_nat (length (filter (ticket_matches o) db)).
Proof.
  intros Hd Hdb. unfold find_and_count. simpl. rewrite Hd. f_equal.
  unfold matching_rows. rewrite group_by_id_rows.
  fold (ticket_matches o).
  rewrite group_by_id_NoDup.
  - apply Permutation_length. by rewrite merge_sort_Permutation.
  - eapply sublist_NoDup; [|apply fmap_sublist, sublist_filter].
    by rewrite merge_sort_Permutation.
  - apply Forall_forall. intros ? _. apply not_elem_of_nil.
Qed.

Lemma issued_outcome w req st :
  issued (outcome w req st) =
    match parsed_date req with
    | inl _ => None
    | inr day => Some (options_with (w day) req)
    end.
Proof. unfold outcome. by destruct (parsed_date req). Qed.

(** ** The ownership clause and the search (C2) *)

Lemma Backend_where_Op_or req u day :
  Backend_where req u day !! Op_or =
    if has_search req then Some (search_or (sanitized req))
    else if is_true_flag (showAll req) then None
    else Some (own_or_pending (userId req)).
Proof. unfold Backend_where. cbn zeta. table_lookup. Qed.

Lemma Part000_where_Op_or req u day :
  Part000_where req u day !! Op_or =
    if has_search req
       && negb (has_unread req && negb (Part000.isAdmin u)
                && negb (is_true_flag (showAll req)))
    then Some (search_or (sanitized req))
    else if is_true_flag (showAll req) then None
    else Some (own_or_pending (userId req)).
Proof. unfold Part000_where. table_lookup. Qed.

Lemma eval_own_or_pending r uid :
  eval_entry r Op_or (own_or_pending uid) = true → mine_or_pending uid r.1.
Proof.
  unfold mine_or_pending. cbn. rewrite orb_false_r.
  intros [H|H%bool_decide_eq_true]%orb_true_iff; [left|by right].
  destruct (Ticket.userId r.1); cbn in H; [|done].
  by apply bool_decide_eq_true in H as ->.
Qed.

(** Without a search text the ownership clause is in force in both
    versions. *)
Lemma ownership_without_search st req u :
  users st !! userId req = Some u →
  is_true_flag (showAll req) = false →
  has_search req = false →
  Forall (mine_or_pending (userId req))
    (returned (run (Backend.ListTicketsService req) st))
  ∧ Forall (mine_or_pending (userId req))
      (returned (run (Part000.ListTicketsService req) st)).
Proof.
  intros Hu Hall Hs.
  rewrite (Backend_run _ _ _ Hu), (Part000_run _ _ _ Hu), !returned_outcome.
  destruct (parsed_date req) as [e|day]; [done|].
  split; apply page_Forall; intros t m Ht Hw;
    apply (eval_own_or_pending (t, m)), (where_holds_lookup _ _ _ _ Hw);
    cbn [where_ options_with].
  - by rewrite Backend_where_Op_or, Hs, Hall.
  - by rewrite Part000_where_Op_or, Hs, Hall.
Qed.

(** C2 (defect of the code): agent 5 of queue 1 searches for "maria" with
    [showAll] unset. Both versions return a ticket that agent 7 owns and that
    is not pending: the search disjunction has taken the place of the
    ownership disjunction under [Op.or] instead of being added to it. *)
Theorem search_replaces_ownership :
  showAll search_maria = None
  ∧ returned (run (Backend.ListTicketsService search_maria) store_other_owner)
    = [maria]
  ∧ returned (run (Part000.ListTicketsService search_maria) store_other_owner)
    = [maria]
  ∧ ¬ mine_or_pending 5 maria
  ∧ (issued (run (Backend.ListTicketsService search_maria) store_other_owner)
       ≫= λ o, where_ o !! Op_or) = Some (search_or "maria")
  ∧ (issued (run (Part000.ListTicketsService search_maria) store_other_owner)
       ≫= λ o, where_ o !! Op_or) = Some (search_or "maria").
Proof.
  split_and!; try by vm_compute.
  by intros [?|?].
Qed.

(** ** Elevated users and [queueIds] (C3) *)

Lemma entries_queue_blind req day e t m q :
  e = None ∨ e = Some (own_or_pending (userId req))
  ∨ e = Some (search_or (sanitized req)) →
  forallb (entry_holds (with_queue q t, m))
    [(KAttr "queueId", None); (KAttr "status", status_entry req);
     (KAttr "createdAt", created_on <$> day);
     (KAttr "unreadMessages", unread_entry req); (Op_or, e)]
  = forallb (entry_holds (t, m))
      [(KAttr "queueId", None); (KAttr "status", status_entry req);
       (KAttr "createdAt", created_on <$> day);
       (KAttr "unreadMessages", unread_entry req); (Op_or, e)].
Proof.
  unfold status_entry, unread_entry.
  intros [->|[->| ->]]; destruct (given (status req)), day, (has_unread req);
    reflexivity.
Qed.

Lemma Backend_queue_blind req u day :
  Backend.isAdmin u = true →
  default [] (queueIds req) = [] →
  userQueueIds u = [] →
  queue_blind (options_with (Backend_where req u day) req).
Proof.
  intros Ha Hq Hu. split; cbn [where_ options_with].
  - by rewrite Backend_where_queueId, Ha, Hq, Hu.
  - intros t m q. unfold Backend_where. rewrite Ha, Hq, Hu. cbn zeta.
    rewrite !where_holds_table by apply keys_NoDup.
    rewrite bool_decide_false by (simpl; lia).
    apply entries_queue_blind.
    destruct (has_search req), (is_true_flag (showAll req)); auto.
Qed.

Lemma Part000_queue_blind req u day :
  Part000.isAdmin u = true →
  queue_blind (options_with (Part000_where req u day) req).
Proof.
  intros Ha. split; cbn [where_ options_with].
  - by rewrite Part000_where_queueId, Ha.
  - intros t m q. unfold Part000_where. rewrite Ha.
    rewrite !where_holds_table by apply keys_NoDup.
    apply entries_queue_blind.
    destruct (has_search req), (has_unread req), (is_true_flag (showAll req));
      auto.
Qed.

Lemma Backend_admin_filter st req u :
  users st !! userId req = Some u →
  Backend.isAdmin u = true →
  default [] (queueIds req) ≠ [] →
  Forall (queue_in (default [] (queueIds req)))
    (returned (run (Backend.ListTicketsService req) st)).
Proof.
  intros Hu Ha Hq. rewrite (Backend_run _ _ _ Hu), returned_outcome.
  destruct (parsed_date req) as [e|day]; [done|].
  apply page_Forall. intros t m Ht Hw.
  apply (eval_queue_in (t, m)), (where_holds_lookup _ _ _ _ Hw).
  cbn [where_ options_with]. rewrite Backend_where_queueId, Ha. cbn zeta.
  assert (0 < length (default [] (queueIds req)))%nat
    by (destruct (default [] (queueIds req)); [done|simpl; lia]).
  by rewrite !(bool_decide_true _ H).
Qed.

(** C3, as stated, fails on src/unnamed/part_000: the admin asks for queues
    3 and 4 and is returned a ticket of queue 9. *)
Lemma Part000_not_elevated_queue_filter :
  ¬ elevated_queue_filter Part000.isAdmin Part000.ListTicketsService.
Proof.
  intros H.
  destruct (H store_admin (with_queueIds (Some [3; 4]) (request 1)) admin1)
    as [H' _]; [by vm_compute|done|].
  specialize (H' ltac:(done)).
  change (returned _) with [ticket 1 "pending" None (Some 9) "Ana"] in H'.
  apply Forall_inv in H'. unfold queue_in in H'. simpl in H'. set_solver.
Qed.

(** C3 (amended): in ListTicketsService.ts an elevated user (admin or
    superadmin) who supplies a non-empty [queueIds] is returned only tickets
    of these queues, and one who supplies none and has no assigned queue gets
    a query with no queue restriction. In part_000 the query of an elevated
    user (admin) never has a queue restriction, whatever [queueIds] holds. *)
Theorem elevated_queue_override st req u :
  users st !! userId req = Some u →
  (Backend.isAdmin u = true →
     (default [] (queueIds req) ≠ [] →
        Forall (queue_in (default [] (queueIds req)))
          (returned (run (Backend.ListTicketsService req) st)))
     ∧ (default [] (queueIds req) = [] → userQueueIds u = [] →
        ∀ o, issued (run (Backend.ListTicketsService req) st) = Some o →
             queue_blind o))
  ∧ (Part000.isAdmin u = true →
     ∀ o, issued (run (Part000.ListTicketsService req) st) = Some o →
          queue_blind o).
Proof.
  intros Hu. split; intros Ha; [split|].
  - by apply (Backend_admin_filter _ _ u).
  - intros Hq Hnil o. rewrite (Backend_run _ _ _ Hu), issued_outcome.
    destruct (parsed_date req) as [e|day]; intros [= <-].
    by apply Backend_queue_blind.
  - intros o. rewrite (Part000_run _ _ _ Hu), issued_outcome.
    destruct (parsed_date req) as [e|day]; intros [= <-].
    by apply Part000_queue_blind.
Qed.

Lemma elevated_queue_override_witness :
  Forall (queue_in [9])
    (returned (run (Backend.ListTicketsService
                      (with_queueIds (Some [9]) (request 1))) store_admin))
  ∧ (∃ o, issued (run (Backend.ListTicketsService (request 1)) store_admin)
          = Some o ∧ queue_blind o)
  ∧ (∃ o, issued (run (Part000.ListTicketsService
                         (with_queueIds (Some [9]) (request 1))) store_admin)
          = Some o ∧ queue_blind o).
Proof.
  split_and!.
  - destruct (elevated_queue_override store_admin
                (with_queueIds (Some [9]) (request 1)) admin1) as [HB _];
      [by vm_compute|].
    destruct HB as [HB _]; [done|]. by apply HB.
  - destruct (elevated_queue_override store_admin (request 1) admin1)
      as [HB _]; [by vm_compute|].
    destruct HB as [_ HB]; [done|].
    eexists. split; [reflexivity|]. by apply HB.
  - destruct (elevated_queue_override store_admin
                (with_queueIds (Some [9]) (request 1)) admin1) as [_ HP];
      [by vm_compute|].
    eexists. split; [reflexivity|]. by apply HP.
Defined.

(** The slip left out of C3: in ListTicketsService.ts an admin who has
    assigned queues and supplies no [queueIds] is held to the assigned
    queues, where the comments of the source say "senão, vê tudo". *)
Example Backend_admin_held_to_own_queues :
  returned (run (Backend.ListTicketsService (request 1)) store_admin_queue) = []
  ∧ (issued (run (Backend.ListTicketsService (request 1)) store_admin_queue)
       ≫= λ o, where_ o !! KAttr "queueId") = Some (EAttr (CIn [1])).
Proof. by vm_compute. Qed.

(** ** Tickets in no queue (C4) *)

(** C4: in part_000 the query of every non-admin user, whatever [showAll]
    and the other parameters are, carries the queue clause
    [queueId: {[Op.or]: [userQueueIds, null]}], and a row of a ticket whose
    [queueId] is NULL satisfies that clause, also when the user has no
    assigned queue. *)
Theorem part000_admits_null_queue st req u o :
  users st !! userId req = Some u →
  Part000.isAdmin u = false →
  issued (run (Part000.ListTicketsService req) st) = Some o →
  where_ o !! KAttr "queueId"
    = Some (EAttr (COr [CIn (userQueueIds u); CIsNull]))
  ∧ ∀ t m, Ticket.queueId t = None →
      eval_entry (t, m) (KAttr "queueId")
        (EAttr (COr [CIn (userQueueIds u); CIsNull])) = true.
Proof.
  intros Hu Ha. rewrite (Part000_run _ _ _ Hu), issued_outcome.
  destruct (parsed_date req) as [e|day]; intros [= <-].
  cbn [where_ options_with]. rewrite Part000_where_queueId, Ha.
  split; [done|]. intros t m Hq. by apply eval_queue_null.
Qed.

Lemma part000_admits_null_queue_witness :
  ∃ o,
    issued (run (Part000.ListTicketsService (request 5)) store_no_queue) = Some o
    ∧ where_ o !! KAttr "queueId" = Some (EAttr (COr [CIn []; CIsNull]))
    ∧ eval_entry (ticket 1 "pending" None None "Ana", None) (KAttr "queueId")
        (EAttr (COr [CIn []; CIsNull])) = true
    ∧ returned (run (Part000.ListTicketsService (request 5)) store_no_queue)
      = [ticket 1 "pending" None None "Ana"].
Proof.
  eexists. split; [reflexivity|].
  destruct (part000_admits_null_queue store_no_queue (request 5)
              (User.mk 5 "user" (Some [])) _ ltac:(by vm_compute) eq_refl eq_refl)
    as [H1 H2].
  split_and!; [exact H1|by apply H2|by vm_compute].
Defined.

(** ** The two notions of elevated user (C5) *)

(** C5: a user whose profile is "superadmin" is elevated for
    ListTicketsService.ts and is not for part_000, and there is a request on
    which the two services return different pages: they are not the same
    function. *)
Theorem versions_differ_on_superadmin :
  (∀ id qs, Backend.isAdmin (User.mk id "superadmin" qs) = true
            ∧ Part000.isAdmin (User.mk id "superadmin" qs) = false)
  ∧ returned (run (Backend.ListTicketsService (request 1)) store_superadmin)
    = [ticket 1 "pending" None (Some 2) "Ana"]
  ∧ returned (run (Part000.ListTicketsService (request 1)) store_superadmin) = []
  ∧ Backend.ListTicketsService ≠ Part000.ListTicketsService.
Proof.
  split_and!; [done|by vm_compute..|].
  intros H.
  assert (returned (run (Backend.ListTicketsService (request 1)) store_superadmin)
          = returned (run (Part000.ListTicketsService (request 1)) store_superadmin))
    as H' by by rewrite H.
  by vm_compute in H'.
Qed.

(** ** The [queueIds] of an ordinary user (C6) *)

Lemma Backend_where_ordinary req u day qs :
  Backend.isAdmin u = false →
  Backend_where (with_queueIds qs req) u day = Backend_where req u day.
Proof. intros Ha. unfold Backend_where. by rewrite Ha. Qed.

(** C6: for a user who is not elevated, two requests that differ in
    [queueIds] only make the same calls with the same options, and get the
    same response (or the same error). part_000 reads [queueIds] for no
    user. *)
Theorem queueIds_ignored st req u qs :
  users st !! userId req = Some u →
  (Backend.isAdmin u = false →
     run (Backend.ListTicketsService (with_queueIds qs req)) st
     = run (Backend.ListTicketsService req) st)
  ∧ run (Part000.ListTicketsService (with_queueIds qs req)) st
    = run (Part000.ListTicketsService req) st.
Proof.
  intros Hu. split; [intros Ha|].
  - rewrite !(Backend_run _ _ u) by done. unfold outcome.
    change (parsed_date (with_queueIds qs req)) with (parsed_date req).
    destruct (parsed_date req) as [e|day]; [done|].
    by rewrite (Backend_where_ordinary _ _ _ _ Ha).
  - by rewrite !(Part000_run _ _ u) by done.
Qed.

Lemma queueIds_ignored_witness :
  run (Backend.ListTicketsService (with_queueIds (Some [2]) (request 5)))
    store_two_queues
  = run (Backend.ListTicketsService (request 5)) store_two_queues
  ∧ run (Part000.ListTicketsService (with_queueIds (Some [2]) (request 5)))
      store_two_queues
    = run (Part000.ListTicketsService (request 5)) store_two_queues.
Proof.
  destruct (queueIds_ignored store_two_queues (request 5) agent5 (Some [2]))
    as [HB HP]; [by vm_compute|].
  split; [by apply HB|exact HP].
Defined.

(** ** Errors and pages, for either version *)



Lemma order_updatedAt : order_rel [("updatedAt", DESC)] = newer_first.
Proof. done. Qed.


(** What follows from the closed form holds of either version. *)
Section either_version.

Variable service : Request → Async Response.
Variable where_of : Request → User.t → option Z → gmap Key Entry.

Hypothesis run_missing : ∀ req st,
  users st !! userId req = None →
  run (service req) st = (inl NotFound, [CallShowUser (userId req)]).

Hypothesis run_found : ∀ req st u,
  users st !! userId req = Some u →
  run (service req) st = outcome (where_of req u) req st.



End either_version.

(** ** Errors (C7) *)



(** ** Pagination (C8) *)



(** ** The unread step of part_000 (C9) *)

Lemma count_rows db o :
  distinct o = true →
  (find_and_count db o).1
  = Z.of_nat (length (group_by_id []
      (filter (ticket_matches o) (merge_sort (order_rel (order o)) db)))).
Proof.
  intros Hd. unfold find_and_count. simpl. rewrite Hd. f_equal.
  unfold matching_rows. by rewrite group_by_id_rows.
Qed.

Lemma find_messages s :
  List.find (λ i, bool_decide (model i = MMessage))
    ([include_contact; include_queue; include_whatsapp] ++ [include_messages s])
  = Some (include_messages s).
Proof. done. Qed.

(** The join of the services is a left join: every ticket has a row. *)
Lemma joined_rows_options w req t :
  joined_rows (include (options_with w req)) t ≠ [].
Proof.
  unfold options_with, joined_rows. cbn [include].
  destruct (has_search req); [|done]. rewrite find_messages.
  match goal with |- context [filter ?P ?l] => by destruct (filter P l) end.
Qed.

Lemma ticket_matches_blind w req t :
  (∀ m, where_holds w (t, m) = where_holds w (t, None)) →
  ticket_matches (options_with w req) t ↔ where_holds w (t, None) = true.
Proof.
  intros Hb. unfold ticket_matches. cbn [where_].
  pose proof (joined_rows_options w req t) as Hne.
  rewrite Exists_exists. split.
  - intros ([t' m] & Hr & Hw). apply joined_rows_fst in Hr. simpl in Hr.
    subst t'. by rewrite <- (Hb m).
  - intros Hw. destruct (joined_rows _ t) as [|[t' m] l] eqn:E; [done|].
    assert ((t', m) ∈ joined_rows (include (options_with w req)) t) as Hr
      by (rewrite E; left).
    exists (t', m). split; [by rewrite <- E|].
    apply joined_rows_fst in Hr. simpl in Hr. subst t'. by rewrite Hb.
Qed.

Lemma Part000_where_no_search req u day :
  Part000.isAdmin u = false →
  has_unread req = true →
  is_true_flag (showAll req) = false →
  Part000_where req u day = Part000_where (with_searchParam None req) u day.
Proof.
  intros Ha Hun Hall. unfold Part000_where.
  change (has_unread (with_searchParam None req)) with (has_unread req).
  change (has_search (with_searchParam None req)) with false.
  rewrite Ha, Hun, Hall. simpl. by rewrite andb_false_r, Hall.
Qed.

Lemma own_where_message_blind req u day t m :
  Part000.isAdmin u = false →
  has_unread req = true →
  is_true_flag (showAll req) = false →
  where_holds (Part000_where req u day) (t, m)
  = where_holds (Part000_where req u day) (t, None).
Proof.
  intros Ha Hun Hall. unfold Part000_where.
  rewrite !where_holds_table by apply keys_NoDup.
  rewrite Ha, Hun, Hall. simpl negb. rewrite andb_false_r.
  unfold status_entry, unread_entry.
  destruct (given (status req)), day, (has_unread req); reflexivity.
Qed.

(** C9: in part_000, for a non-admin user with [withUnreadMessages] "true",
    [showAll] other than "true" and a search text, the [Op.or] entry of the
    query is the ownership disjunction, not the search disjunction; the
    [where] object is the one of the same request without search text, and
    so is the count: the search text no longer selects among the tickets. *)
Theorem part000_unread_overwrites_search st req u o :
  users st !! userId req = Some u →
  Part000.isAdmin u = false →
  has_unread req = true →
  is_true_flag (showAll req) = false →
  has_search req = true →
  issued (run (Part000.ListTicketsService req) st) = Some o →
  where_ o !! Op_or = Some (own_or_pending (userId req))
  ∧ where_ <$> issued (run (Part000.ListTicketsService
                              (with_searchParam None req)) st)
    = Some (where_ o)
  ∧ counted (run (Part000.ListTicketsService req) st)
    = counted (run (Part000.ListTicketsService (with_searchParam None req)) st).
Proof.
  intros Hu Ha Hun Hall Hs.
  rewrite !(Part000_run _ _ u) by done.
  rewrite !issued_outcome, !counted_outcome.
  change (parsed_date (with_searchParam None req)) with (parsed_date req).
  destruct (parsed_date req) as [e|day]; intros [= <-].
  cbn [where_ options_with fmap option_fmap option_map].
  rewrite <- (Part000_where_no_search _ _ _ Ha Hun Hall).
  split_and!; [|done|].
  - by rewrite Part000_where_Op_or, Hs, Hun, Ha, Hall.
  - rewrite !count_rows by done. do 3 f_equal.
    apply list_filter_iff. intros t.
    rewrite !ticket_matches_blind; [done|intros m..];
      by apply own_where_message_blind.
Qed.

(** No contact and no message of the store has "zebra" in it; the pending
    ticket with unread messages is counted all the same. *)
Lemma part000_unread_overwrites_search_witness :
  ∃ o, issued (run (Part000.ListTicketsService search_unread) store_chatty)
       = Some o
       ∧ where_ o !! Op_or = Some (own_or_pending 5)
       ∧ counted (run (Part000.ListTicketsService search_unread) store_chatty)
         = counted (run (Part000.ListTicketsService
                           (with_searchParam None search_unread))
                      store_chatty)
       ∧ counted (run (Part000.ListTicketsService search_unread) store_chatty)
         = 1.
Proof.
  eexists. split; [reflexivity|].
  destruct (part000_unread_overwrites_search store_chatty search_unread
              agent5 _ ltac:(by vm_compute) eq_refl eq_refl eq_refl eq_refl
              eq_refl)
    as (H1 & _ & H3).
  split_and!; [exact H1|exact H3|by vm_compute].
Defined.

(** ** A search text of white space (C10) *)

Lemma search_or_blank r : eval_entry r Op_or (search_or "") = true.
Proof. cbn. by rewrite like_percent_percent. Qed.

Lemma has_search_white req s :
  searchParam req = Some s → s ≠ "" → has_search req = true.
Proof. unfold has_search. intros -> ?. by destruct s. Qed.

Lemma sanitized_blank req s :
  searchParam req = Some s → white s = true → sanitized req = "".
Proof. unfold sanitized. intros -> ?. by apply sanitized_white. Qed.

(** C10: a search text that is not empty and is made of white space only
    runs the search branch with the pattern "%%": the message inclusion is
    added, and [Op.or] holds the search disjunction over that pattern (in
    part_000, unless the unread step puts the ownership disjunction back),
    which every row satisfies. So the ownership disjunction is gone, and the
    page can differ from the page for the search text "": agent 5 sees the
    open ticket of agent 7 with " " and does not with "". *)
Theorem blank_search_is_a_search st req u s o :
  users st !! userId req = Some u →
  searchParam req = Some s → s ≠ "" → white s = true →
  (issued (run (Backend.ListTicketsService req) st) = Some o →
     where_ o !! Op_or = Some (search_or "")
     ∧ include_messages "" ∈ include o)
  ∧ (issued (run (Part000.ListTicketsService req) st) = Some o →
     has_unread req && negb (Part000.isAdmin u)
       && negb (is_true_flag (showAll req)) = false →
     where_ o !! Op_or = Some (search_or "")
     ∧ include_messages "" ∈ include o)
  ∧ (∀ r, eval_entry r Op_or (search_or "") = true)
  ∧ returned (run (Backend.ListTicketsService search_blank) store_other_owner)
    = [maria]
  ∧ returned (run (Backend.ListTicketsService search_empty) store_other_owner)
    = []
  ∧ returned (run (Part000.ListTicketsService search_blank) store_other_owner)
    = [maria]
  ∧ returned (run (Part000.ListTicketsService search_empty) store_other_owner)
    = [].
Proof.
  intros Hu Hs Hne Hw.
  pose proof (has_search_white _ _ Hs Hne) as Hhs.
  pose proof (sanitized_blank _ _ Hs Hw) as Hsan.
  split_and!.
  - rewrite (Backend_run _ _ _ Hu), issued_outcome.
    destruct (parsed_date req) as [e|day]; intros [= <-].
    cbn [where_ include options_with].
    rewrite Backend_where_Op_or, Hhs, Hsan. split; [done|set_solver].
  - rewrite (Part000_run _ _ _ Hu), issued_outcome.
    destruct (parsed_date req) as [e|day]; intros [= <-] Hun.
    cbn [where_ include options_with].
    rewrite Part000_where_Op_or, Hhs, Hsan, Hun. split; [done|set_solver].
  - apply search_or_blank.
  - by vm_compute.
  - by vm_compute.
  - by vm_compute.
  - by vm_compute.
Qed.

Lemma blank_search_is_a_search_witness :
  ∃ o, issued (run (Backend.ListTicketsService search_blank) store_other_owner)
       = Some o
       ∧ where_ o !! Op_or = Some (search_or "")
       ∧ include_messages "" ∈ include o.
Proof.
  destruct (issued (run (Backend.ListTicketsService search_blank)
                      store_other_owner))
    as [o|] eqn:Ho; [|by vm_compute in Ho].
  exists o. split; [done|].
  destruct (blank_search_is_a_search store_other_owner search_blank agent5 " " o
              ltac:(by vm_compute) eq_refl ltac:(done) eq_refl) as [HB _].
  by apply HB.
Defined.

(** * Further properties of the two services *)

(** ** The status, date and unread filters *)

Lemma Backend_where_status req u day :
  Backend_where req u day !! KAttr "status" = status_entry req.
Proof. unfold Backend_where. cbn zeta. table_lookup. Qed.


Lemma Backend_where_unread req u day :
  Backend_where req u day !! KAttr "unreadMessages" = unread_entry req.
Proof. unfold Backend_where. cbn zeta. table_lookup. Qed.

Lemma Part000_where_status req u day :
  Part000_where req u day !! KAttr "status" = status_entry req.
Proof. unfold Part000_where. table_lookup. Qed.


Lemma Part000_where_unread req u day :
  Part000_where req u day !! KAttr "unreadMessages" = unread_entry req.
Proof. unfold Part000_where. table_lookup. Qed.

Lemma eval_status r s :
  eval_entry r (KAttr "status") (EAttr (CEq (VStr s))) = true ↔ Ticket.status r.1 = s.
Proof. cbn. apply bool_decide_eq_true. Qed.

Lemma eval_created_on r day :
  eval_entry r (KAttr "createdAt") (created_on day) = true ↔ created_within day r.1.
Proof. cbn. apply bool_decide_eq_true. Qed.

Lemma eval_unread r :
  eval_entry r (KAttr "unreadMessages") (EAttr (CGt 0)) = true
  ↔ 0 < Ticket.unreadMessages r.1.
Proof. cbn. apply bool_decide_eq_true. Qed.


Section filters.

Variable service : Request → Async Response.
Variable where_of : Request → User.t → option Z → gmap Key Entry.

Hypothesis run_missing : ∀ req st,
  users st !! userId req = None →
  run (service req) st = (inl NotFound, [CallShowUser (userId req)]).

Hypothesis run_found : ∀ req st u,
  users st !! userId req = Some u →
  run (service req) st = outcome (where_of req u) req st.

(** Whatever an entry of the query asks of a row holds of every ticket of
    the page. *)
Lemma returned_entry st req k (P : Ticket.t → Prop) :
  (∀ u day, parsed_date req = inr day →
     ∃ e, where_of req u day !! k = Some e
          ∧ ∀ r, eval_entry r k e = true → P r.1) →
  Forall P (returned (run (service req) st)).
Proof.
  intros H. destruct (users st !! userId req) as [u|] eqn:Hu.
  - rewrite (run_found _ _ u Hu), returned_outcome.
    destruct (parsed_date req) as [e|day] eqn:Hd; [done|].
    destruct (H u day eq_refl) as (e & He & HP).
    apply page_Forall. intros t m _ Hw.
    apply (HP (t, m)), (where_holds_lookup _ _ _ _ Hw He).
  - by rewrite run_missing.
Qed.

Hypothesis where_status : ∀ req u day,
  where_of req u day !! KAttr "status" = status_entry req.

Hypothesis where_createdAt : ∀ req u day,
  where_of req u day !! KAttr "createdAt" = created_on <$> day.

Hypothesis where_unread : ∀ req u day,
  where_of req u day !! KAttr "unreadMessages" = unread_entry req.

Lemma returned_status st req s :
  status req = Some s → s ≠ "" →
  Forall (λ t, Ticket.status t = s) (returned (run (service req) st)).
Proof.
  intros Hs Hne. apply (returned_entry _ _ (KAttr "status")).
  intros u day _. exists (EAttr (CEq (VStr s))). split.
  - rewrite where_status. unfold status_entry. rewrite Hs. by destruct s.
  - intros r. apply eval_status.
Qed.


Lemma returned_unread st req :
  withUnreadMessages req = Some "true" →
  Forall (λ t, 0 < Ticket.unreadMessages t) (returned (run (service req) st)).
Proof.
  intros Hun. apply (returned_entry _ _ (KAttr "unreadMessages")).
  intros u day _. exists (EAttr (CGt 0)). split.
  - rewrite where_unread. unfold unread_entry, has_unread. by rewrite Hun.
  - intros r. apply eval_unread.
Qed.

End filters.

(** X1: when a status is given (a non-empty string), every ticket either
    version returns has exactly that status, whatever the other parameters
    and whoever the acting user is. *)
Theorem status_filter st req s :
  status req = Some s → s ≠ "" →
  Forall (λ t, Ticket.status t = s)
    (returned (run (Backend.ListTicketsService req) st))
  ∧ Forall (λ t, Ticket.status t = s)
      (returned (run (Part000.ListTicketsService req) st)).
Proof.
  intros Hs Hne. split.
  - by apply (returned_status _ Backend_where Backend_run_missing Backend_run
                Backend_where_status).
  - by apply (returned_status _ Part000_where Part000_run_missing Part000_run
                Part000_where_status).
Qed.

Lemma status_filter_witness :
  Forall (λ t, Ticket.status t = "closed")
    (returned (run (Backend.ListTicketsService
                      (with_status (Some "closed") (request 5))) store_mixed))
  ∧ Forall (λ t, Ticket.status t = "closed")
      (returned (run (Part000.ListTicketsService
                        (with_status (Some "closed") (request 5))) store_mixed))
  ∧ length (returned (run (Backend.ListTicketsService
                             (with_status (Some "closed") (request 5)))
                        store_mixed)) = 1%nat.
Proof.
  destruct (status_filter store_mixed (with_status (Some "closed") (request 5))
              "closed" eq_refl ltac:(done)) as [HB HP].
  split_and!; [exact HB|exact HP|by vm_compute].
Defined.



(** X3: with [withUnreadMessages] "true", every ticket either version
    returns has at least one unread message. *)
Theorem unread_filter st req :
  withUnreadMessages req = Some "true" →
  Forall (λ t, 0 < Ticket.unreadMessages t)
    (returned (run (Backend.ListTicketsService req) st))
  ∧ Forall (λ t, 0 < Ticket.unreadMessages t)
      (returned (run (Part000.ListTicketsService req) st)).
Proof.
  intros Hun. split.
  - by apply (returned_unread _ Backend_where Backend_run_missing Backend_run
                Backend_where_unread).
  - by apply (returned_unread _ Part000_where Part000_run_missing Part000_run
                Part000_where_unread).
Qed.

Lemma unread_filter_witness :
  Forall (λ t, 0 < Ticket.unreadMessages t)
    (returned (run (Backend.ListTicketsService
                      (with_unread (Some "true") (request 5))) store_mixed))
  ∧ Forall (λ t, 0 < Ticket.unreadMessages t)
      (returned (run (Part000.ListTicketsService
                        (with_unread (Some "true") (request 5))) store_mixed))
  ∧ length (returned (run (Backend.ListTicketsService
                             (with_unread (Some "true") (request 5)))
                        store_mixed)) = 2%nat.
Proof.
  destruct (unread_filter store_mixed (with_unread (Some "true") (request 5))
              eq_refl) as [HB HP].
  split_and!; [exact HB|exact HP|by vm_compute].
Defined.

(** ** Which tickets ListTicketsService.ts selects *)

Lemma eval_queue_in_iff r l :
  eval_entry r (KAttr "queueId") (EAttr (CIn l)) = true ↔ queue_in l r.1.
Proof.
  unfold queue_in. cbn. destruct (Ticket.queueId r.1); cbn; [|done].
  apply bool_decide_eq_true.
Qed.

Lemma eval_own_or_pending_iff r uid :
  eval_entry r Op_or (own_or_pending uid) = true ↔ mine_or_pending uid r.1.
Proof.
  split; [apply eval_own_or_pending|].
  unfold mine_or_pending. cbn. rewrite orb_false_r.
  intros [H|H]; apply orb_true_iff; [left|right].
  - rewrite H. cbn. by apply bool_decide_eq_true.
  - by apply bool_decide_eq_true.
Qed.

Lemma where_holds_singleton k e r : where_holds {[k := e]} r = eval_entry r k e.
Proof.
  rewrite <- insert_empty, where_holds_insert, delete_empty, where_holds_empty.
  apply andb_true_r.
Qed.

(** The search disjunction on a row: the contact of the ticket, or the
    message of the row. *)
Lemma eval_search_or t m s :
  eval_entry (t, m) Op_or (search_or s) = true ↔
    like (like_pattern s) (toLocaleLowerCase (Contact.name (Ticket.contact t))) = true
    ∨ like (like_pattern s) (Contact.number (Ticket.contact t)) = true
    ∨ ∃ b, m = Some b
           ∧ like (like_pattern s) (toLocaleLowerCase (Message.body b)) = true.
Proof.
  cbn. rewrite orb_false_r, !orb_true_iff.
  destruct m as [b|]; cbn; naive_solver.
Qed.

(** The rows the message inclusion of a search leaves to a ticket. *)
Lemma joined_rows_search w req t r :
  has_search req = true →
  r ∈ joined_rows (include (options_with w req)) t ↔
    r.1 = t
    ∧ match r.2 with
      | Some b =>
          b ∈ Ticket.messages t
          ∧ like (like_pattern (sanitized req))
              (toLocaleLowerCase (Message.body b)) = true
      | None =>
          ∀ b, b ∈ Ticket.messages t →
               like (like_pattern (sanitized req))
                 (toLocaleLowerCase (Message.body b)) ≠ true
      end.
Proof.
  intros Hs. unfold options_with, joined_rows. cbn [include]. rewrite Hs.
  rewrite find_messages. cbn [include_messages include_where default id
    is_required required].
  set (P := λ b : Message.t, where_holds _ (t, Some b) = true).
  assert (∀ b, P b ↔ like (like_pattern (sanitized req))
                       (toLocaleLowerCase (Message.body b)) = true) as HP.
  { intros b. unfold P. by rewrite where_holds_singleton. }
  destruct (filter P (Ticket.messages t)) as [|b0 ms] eqn:E.
  - rewrite list_elem_of_singleton. destruct r as [t' [b|]]; simpl; split.
    + done.
    + intros [_ [Hb Hl]].
      assert (b ∈ filter P (Ticket.messages t)) as Hin
        by (apply list_elem_of_filter; split; [by apply HP|done]).
      rewrite E in Hin. by apply elem_of_nil in Hin.
    + intros [= ->]. split; [done|]. intros b Hb Hl.
      assert (b ∈ filter P (Ticket.messages t)) as Hin
        by (apply list_elem_of_filter; split; [by apply HP|done]).
      rewrite E in Hin. by apply elem_of_nil in Hin.
    + by intros [-> _].
  - rewrite <- E, list_elem_of_fmap. destruct r as [t' [b|]]; simpl; split.
    + intros (b' & [= -> ->] & [Hl Hb]%list_elem_of_filter).
      split; [done|]. split; [done|]. by apply HP.
    + intros [-> [Hb Hl]]. exists b. split; [done|].
      apply list_elem_of_filter. split; [by apply HP|done].
    + by intros (b' & [=] & _).
    + intros [_ Hno].
      assert (b0 ∈ filter P (Ticket.messages t)) as Hin by (rewrite E; left).
      apply list_elem_of_filter in Hin as [Hl Hb]. destruct (Hno b0 Hb).
      by apply HP.
Qed.

Lemma joined_rows_no_search w req t :
  has_search req = false →
  joined_rows (include (options_with w req)) t = [(t, None)].
Proof. intros Hs. unfold options_with, joined_rows. cbn [include]. by rewrite Hs. Qed.

Lemma entry_status req r :
  entry_holds r (KAttr "status", status_entry req) = true
  ↔ (given (status req) = true → Ticket.status r.1 = default "" (status req)).
Proof.
  unfold entry_holds, status_entry. cbn [fst snd].
  destruct (given (status req)); [|done].
  rewrite eval_status. naive_solver.
Qed.

Lemma entry_createdAt day r :
  entry_holds r (KAttr "createdAt", created_on <$> day) = true
  ↔ (∀ d, day = Some d → created_within d r.1).
Proof.
  unfold entry_holds. destruct day as [d|]; cbn [fst snd fmap option_fmap option_map];
    [|done].
  rewrite eval_created_on. naive_solver.
Qed.

Lemma entry_unread req r :
  entry_holds r (KAttr "unreadMessages", unread_entry req) = true
  ↔ (has_unread req = true → 0 < Ticket.unreadMessages r.1).
Proof.
  unfold entry_holds, unread_entry. cbn [fst snd].
  destruct (has_unread req); [|done].
  rewrite eval_unread. naive_solver.
Qed.

(** What the [where] object of ListTicketsService.ts asks of a row. *)
Lemma Backend_where_holds req u day r :
  where_holds (Backend_where req u day) r = true ↔
    Backend_filters req u day r.1
    ∧ (if has_search req
       then eval_entry r Op_or (search_or (sanitized req)) = true
       else is_true_flag (showAll req) = true
            ∨ mine_or_pending (userId req) r.1).
Proof.
  unfold Backend_where, Backend_filters. cbn zeta.
  rewrite where_holds_table by apply keys_NoDup.
  cbn [forallb]. rewrite !andb_true_iff.
  rewrite entry_status, entry_createdAt, entry_unread.
  set (eff := if bool_decide (0 < length (default [] (queueIds req)))%nat
              then default [] (queueIds req) else userQueueIds u).
  assert (entry_holds r
            (KAttr "queueId",
             if Backend.isAdmin u
             then if bool_decide (0 < length eff)%nat
                  then Some (EAttr (CIn eff)) else None
             else Some (EAttr (CIn (sentinel (userQueueIds u))))) = true
          ↔ (if Backend.isAdmin u then eff = [] ∨ queue_in eff r.1
             else queue_in (sentinel (userQueueIds u)) r.1)) as ->.
  { unfold entry_holds. cbn [fst snd].
    destruct (Backend.isAdmin u); [|apply eval_queue_in_iff].
    case_bool_decide as Hlen.
    - rewrite eval_queue_in_iff. split; [by right|].
      intros [Hnil|?]; [|done]. rewrite Hnil in Hlen. simpl in Hlen. lia.
    - split; [|done]. intros _. left. destruct eff; [done|simpl in Hlen; lia]. }
  assert (entry_holds r
            (Op_or,
             if has_search req then Some (search_or (sanitized req))
             else if is_true_flag (showAll req) then None
                  else Some (own_or_pending (userId req))) = true
          ↔ (if has_search req
             then eval_entry r Op_or (search_or (sanitized req)) = true
             else is_true_flag (showAll req) = true
                  ∨ mine_or_pending (userId req) r.1)) as ->.
  { unfold entry_holds. cbn [fst snd].
    destruct (has_search req); [done|].
    destruct (is_true_flag (showAll req)); [naive_solver|].
    rewrite eval_own_or_pending_iff. naive_solver. }
  tauto.
Qed.

(** A [where] object whose clauses look at the ticket only, but for the
    search disjunction, which looks at the message of the row. *)
Lemma ticket_matches_rows w req t (b : bool) (F G : Prop) :
  (b = true → has_search req = true) →
  (∀ m, where_holds w (t, m) = true ↔
     F ∧ (if b then eval_entry (t, m) Op_or (search_or (sanitized req)) = true
          else G)) →
  ticket_matches (options_with w req) t
  ↔ F ∧ (if b then searched (sanitized req) t else G).
Proof.
  intros Hb Hw. unfold ticket_matches. cbn [where_ options_with].
  rewrite Exists_exists.
  assert (∃ m, (t, m) ∈ joined_rows (include (options_with w req)) t) as Hrow.
  { pose proof (joined_rows_options w req t) as Hne.
    destruct (joined_rows _ t) as [|[t' m] l] eqn:E; [done|].
    assert ((t', m) ∈ joined_rows (include (options_with w req)) t) as Hr
      by (rewrite E; left).
    pose proof (joined_rows_fst _ _ _ Hr) as Ht. simpl in Ht. subst t'.
    exists m. left. }
  destruct b.
  - specialize (Hb eq_refl). split.
    + intros ([t' m] & Hr & H).
      pose proof (joined_rows_fst _ _ _ Hr) as Ht. simpl in Ht. subst t'.
      apply (joined_rows_search _ _ _ _ Hb) in Hr as [_ Hm]. simpl in Hm.
      apply Hw in H as [HF Hor]. split; [done|].
      apply eval_search_or in Hor as [?|[?|(c & -> & Hc)]];
        [by left|by right; left|].
      right; right. exists c. by destruct Hm.
    + intros [HF [Hn|[Hn|(c & Hc & Hl)]]].
      * destruct Hrow as [m Hr]. exists (t, m). split; [done|].
        apply Hw. split; [done|]. apply eval_search_or. by left.
      * destruct Hrow as [m Hr]. exists (t, m). split; [done|].
        apply Hw. split; [done|]. apply eval_search_or. by right; left.
      * exists (t, Some c). split.
        -- by apply (joined_rows_search _ _ _ _ Hb).
        -- apply Hw. split; [done|]. apply eval_search_or.
           right; right. by exists c.
  - split.
    + intros ([t' m] & Hr & H).
      pose proof (joined_rows_fst _ _ _ Hr) as Ht. simpl in Ht. subst t'.
      by apply Hw in H.
    + intros H. destruct Hrow as [m Hr]. exists (t, m). split; [done|].
      by apply Hw.
Qed.

Lemma Backend_ticket_matches req u day t :
  ticket_matches (options_with (Backend_where req u day) req) t
  ↔ Backend_selects req u day t.
Proof.
  unfold Backend_selects.
  apply (ticket_matches_rows _ _ _ (has_search req)); [done|].
  intros m. apply (Backend_where_holds req u day (t, m)).
Qed.

(** What the [where] object of part_000 asks of a row. *)
Lemma Part000_where_holds req u day r :
  where_holds (Part000_where req u day) r = true ↔
    ((Part000.isAdmin u = false → queue_in_or_null (userQueueIds u) r.1)
     ∧ (given (status req) = true → Ticket.status r.1 = default "" (status req))
     ∧ (∀ d, day = Some d → created_within d r.1)
     ∧ (has_unread req = true → 0 < Ticket.unreadMessages r.1))
    ∧ (if has_search req
          && negb (has_unread req && negb (Part000.isAdmin u)
                   && negb (is_true_flag (showAll req)))
       then eval_entry r Op_or (search_or (sanitized req)) = true
       else is_true_flag (showAll req) = true
            ∨ mine_or_pending (userId req) r.1).
Proof.
  unfold Part000_where.
  rewrite where_holds_table by apply keys_NoDup.
  cbn [forallb]. rewrite !andb_true_iff.
  rewrite entry_status, entry_createdAt, entry_unread.
  assert (entry_holds r
            (KAttr "queueId",
             if Part000.isAdmin u then None
             else Some (EAttr (COr [CIn (userQueueIds u); CIsNull]))) = true
          ↔ (Part000.isAdmin u = false → queue_in_or_null (userQueueIds u) r.1))
    as ->.
  { unfold entry_holds. cbn [fst snd]. destruct (Part000.isAdmin u); [done|].
    split; [intros H _; by apply eval_queue_in_or_null|].
    intros H. specialize (H eq_refl). unfold queue_in_or_null in H. cbn.
    destruct (Ticket.queueId r.1); cbn; [|done].
    rewrite orb_false_r. by apply bool_decide_eq_true. }
  set (b := has_search req && _).
  assert (entry_holds r
            (Op_or,
             if b then Some (search_or (sanitized req))
             else if is_true_flag (showAll req) then None
                  else Some (own_or_pending (userId req))) = true
          ↔ (if b
             then eval_entry r Op_or (search_or (sanitized req)) = true
             else is_true_flag (showAll req) = true
                  ∨ mine_or_pending (userId req) r.1)) as ->.
  { unfold entry_holds. cbn [fst snd]. destruct b; [done|].
    destruct (is_true_flag (showAll req)); [naive_solver|].
    rewrite eval_own_or_pending_iff. naive_solver. }
  tauto.
Qed.

Lemma Part000_ticket_matches req u day t :
  ticket_matches (options_with (Part000_where req u day) req) t
  ↔ Part000_selects req u day t.
Proof.
  unfold Part000_selects. rewrite !(assoc and).
  apply (ticket_matches_rows _ _ _
           (has_search req
            && negb (has_unread req && negb (Part000.isAdmin u)
                     && negb (is_true_flag (showAll req))))).
  - by intros [? _]%andb_true_iff.
  - intros m. rewrite (Part000_where_holds req u day (t, m)). simpl. tauto.
Qed.

Lemma page_matches db o : Forall (ticket_matches o) (find_and_count db o).2.
Proof.
  apply Forall_forall. intros t Ht.
  unfold find_and_count in Ht. simpl in Ht. apply elem_of_group_by_id in Ht.
  apply list_elem_of_fmap in Ht as ([t' m] & -> & H).
  apply subseteq_take, subseteq_drop in H.
  unfold matching_rows in H. apply list_elem_of_filter in H as [Hw H].
  apply list_elem_of_In, in_flat_map in H as (t'' & _ & Hr).
  apply list_elem_of_In in Hr.
  pose proof (joined_rows_fst _ _ _ Hr) as Heq. simpl in Heq. subst t''.
  apply Exists_exists. eauto.
Qed.

(** X4: the tickets ListTicketsService.ts selects are exactly those that
    pass its queue clause, its status, date and unread filters when given,
    and the search when there is a search text, the ownership rule
    (showAll, own ticket or pending) when there is none. Every ticket of the
    page is one of them, and with unique ids the count is their number. *)
Theorem Backend_selection st req u day o :
  users st !! userId req = Some u →
  parsed_date req = inr day →
  issued (run (Backend.ListTicketsService req) st) = Some o →
  (∀ t, ticket_matches o t ↔ Backend_selects req u day t)
  ∧ Forall (Backend_selects req u day)
      (returned (run (Backend.ListTicketsService req) st))
  ∧ (NoDup (Ticket.id <$> all_tickets st) →
     counted (run (Backend.ListTicketsService req) st)
     = Z.of_nat (length (filter (ticket_matches o) (all_tickets st)))).
Proof.
  intros Hu Hd. rewrite (Backend_run _ _ _ Hu).
  rewrite issued_outcome, returned_outcome, counted_outcome, Hd.
  intros [= <-]. split_and!.
  - apply Backend_ticket_matches.
  - eapply Forall_impl; [apply page_matches|].
    intros t. apply Backend_ticket_matches.
  - intros Hnd. by apply count_distinct.
Qed.

(** Agent 5 over [store_mixed], no filter: the three tickets are selected,
    two of them as the agent's own and one as pending. *)
Lemma Backend_selection_witness :
  (∀ t, ticket_matches
          (options_with (Backend_where (request 5) agent5 None) (request 5)) t
        ↔ Backend_selects (request 5) agent5 None t)
  ∧ Forall (Backend_selects (request 5) agent5 None)
      (returned (run (Backend.ListTicketsService (request 5)) store_mixed))
  ∧ counted (run (Backend.ListTicketsService (request 5)) store_mixed) = 3.
Proof.
  destruct (Backend_selection store_mixed (request 5) agent5 None
              (options_with (Backend_where (request 5) agent5 None) (request 5)))
    as (Hm & Hr & Hc); [by vm_compute..|].
  split_and!; [exact Hm|exact Hr|by vm_compute].
Defined.

(** X5: the tickets part_000 selects are exactly those that pass the queue
    clause of a non-admin user (a queue of the user, or none), the status,
    date and unread filters when given, and the search when there is a search
    text, the ownership rule otherwise; for a non-admin user with unread set
    and showAll unset the ownership rule applies whether or not there is a
    search text. *)
Theorem Part000_selection st req u day o :
  users st !! userId req = Some u →
  parsed_date req = inr day →
  issued (run (Part000.ListTicketsService req) st) = Some o →
  (∀ t, ticket_matches o t ↔ Part000_selects req u day t)
  ∧ Forall (Part000_selects req u day)
      (returned (run (Part000.ListTicketsService req) st))
  ∧ (NoDup (Ticket.id <$> all_tickets st) →
     counted (run (Part000.ListTicketsService req) st)
     = Z.of_nat (length (filter (ticket_matches o) (all_tickets st)))).
Proof.
  intros Hu Hd. rewrite (Part000_run _ _ _ Hu).
  rewrite issued_outcome, returned_outcome, counted_outcome, Hd.
  intros [= <-]. split_and!.
  - apply Part000_ticket_matches.
  - eapply Forall_impl; [apply page_matches|].
    intros t. apply Part000_ticket_matches.
  - intros Hnd. by apply count_distinct.
Qed.

(** Agent 5 over [store_mixed], no filter, in part_000. *)
Lemma Part000_selection_witness :
  (∀ t, ticket_matches
          (options_with (Part000_where (request 5) agent5 None) (request 5)) t
        ↔ Part000_selects (request 5) agent5 None t)
  ∧ Forall (Part000_selects (request 5) agent5 None)
      (returned (run (Part000.ListTicketsService (request 5)) store_mixed))
  ∧ counted (run (Part000.ListTicketsService (request 5)) store_mixed) = 3.
Proof.
  destruct (Part000_selection store_mixed (request 5) agent5 None
              (options_with (Part000_where (request 5) agent5 None) (request 5)))
    as (Hm & Hr & Hc); [by vm_compute..|].
  split_and!; [exact Hm|exact Hr|by vm_compute].
Defined.

(** ** What the search matches *)

Lemma string_app_nil_l (b : string) : "" +:+ b = b.
Proof. done. Qed.

Lemma string_app_cons c (a b : string) : String c a +:+ b = String c (a +:+ b).
Proof. done. Qed.

Lemma like_percent_cons p x :
  like (String "%" p) x
  = like p x
    || match x with EmptyString => false | String _ x' => like (String "%" p) x' end.
Proof. by destruct x. Qed.

Lemma like_star p x :
  like (String "%" p) x = true ↔ ∃ a b, x = a +:+ b ∧ like p b = true.
Proof.
  induction x as [|c x IH]; rewrite like_percent_cons.
  - rewrite orb_false_r. split.
    + intros H. by exists "", "".
    + intros (a & b & Hab & H). destruct a; [|done].
      rewrite string_app_nil_l in Hab. by subst b.
  - rewrite orb_true_iff, IH. split.
    + intros [H|(a & b & -> & H)].
      * by exists "", (String c x).
      * by exists (String c a), b.
    + intros (a & b & Hab & H). destruct a as [|c' a].
      * rewrite string_app_nil_l in Hab. left. by subst b.
      * rewrite string_app_cons in Hab. injection Hab as -> ->. right. eauto.
Qed.

Lemma like_plain_cons c p y :
  c ≠ "%"%char → c ≠ "_"%char →
  like (String c p) y
  = match y with
    | EmptyString => false
    | String d y' => bool_decide (c = d) && like p y'
    end.
Proof.
  intros H1 H2. destruct y; cbn [like];
    by rewrite (bool_decide_false (c = "%"%char)),
      (bool_decide_false (c = "_"%char)).
Qed.

Lemma like_plain_prefix s y :
  plain s = true → like (s +:+ "%") y = true ↔ ∃ b, y = s +:+ b.
Proof.
  unfold plain. revert y. induction s as [|c s IH]; intros y.
  - intros _. rewrite string_app_nil_l, like_percent. split; [|done].
    intros _. exists y. by rewrite string_app_nil_l.
  - cbn [list_ascii_of_string forallb].
    intros [[Hc1 Hc2]%andb_true_iff Hs]%andb_true_iff.
    apply negb_true_iff, bool_decide_eq_false in Hc1, Hc2.
    rewrite string_app_cons, like_plain_cons by done.
    destruct y as [|d y].
    + split; [done|]. intros [b Hb]. by rewrite string_app_cons in Hb.
    + rewrite andb_true_iff, bool_decide_eq_true, (IH y Hs). split.
      * intros [-> [b ->]]. exists b. by rewrite string_app_cons.
      * intros [b Hb]. rewrite string_app_cons in Hb. injection Hb as -> ->. eauto.
Qed.

(** [x LIKE '%s%'] is "[s] occurs in [x]" when [s] has no wildcard. *)
Lemma like_contains s x :
  plain s = true → like (like_pattern s) x = true ↔ contains s x.
Proof.
  intros Hs. unfold like_pattern, contains.
  change ("%" +:+ s +:+ "%") with (String "%" (s +:+ "%")).
  rewrite like_star. split.
  - intros (a & b & -> & [b' ->]%like_plain_prefix); [|done]. eauto.
  - intros (a & b & ->). exists a, (s +:+ b). split; [done|].
    apply like_plain_prefix; eauto.
Qed.

Lemma like_percents s x : percents s = true → like (like_pattern s) x = true.
Proof.
  unfold percents, like_pattern. intros Hs.
  change ("%" +:+ s +:+ "%") with (String "%" (s +:+ "%")).
  apply like_star. exists "", x. split; [done|].
  revert x. induction s as [|c s IH]; intros x.
  - rewrite string_app_nil_l. apply like_percent.
  - cbn [list_ascii_of_string forallb] in Hs.
    apply andb_true_iff in Hs as [Hc Hs]. apply bool_decide_eq_true in Hc as ->.
    rewrite string_app_cons. apply like_star. exists "", x. split; [done|]. by apply IH.
Qed.

Lemma searched_found s t : plain s = true → searched s t ↔ found s t.
Proof.
  intros Hs. unfold searched, found. rewrite !like_contains by done.
  split; (intros [?|[?|(m & ? & H)]]; [by left|by right; left|]);
    right; right; exists m; split; [done| |done|]; by apply like_contains.
Qed.

Lemma searched_percents s t : percents s = true → searched s t.
Proof. intros Hs. left. by apply like_percents. Qed.

(** X6: the search is a substring search. When the search text, lower-cased
    and trimmed, has no [%] and no [_], every ticket returned has it in the
    lower-cased name of its contact, in the number of its contact, or in the
    lower-cased body of one of its messages (in part_000, unless the unread
    step has put the ownership rule in its place). *)
Theorem search_finds_the_text st req u :
  users st !! userId req = Some u →
  has_search req = true →
  plain (sanitized req) = true →
  Forall (found (sanitized req))
    (returned (run (Backend.ListTicketsService req) st))
  ∧ (has_unread req && negb (Part000.isAdmin u)
       && negb (is_true_flag (showAll req)) = false →
     Forall (found (sanitized req))
       (returned (run (Part000.ListTicketsService req) st))).
Proof.
  intros Hu Hs Hp. split; [|intros Hov].
  - rewrite (Backend_run _ _ _ Hu), returned_outcome.
    destruct (parsed_date req) as [e|day]; [done|].
    eapply Forall_impl; [apply page_matches|]. intros t.
    rewrite Backend_ticket_matches. unfold Backend_selects. rewrite Hs.
    intros [_ H]. by apply searched_found.
  - rewrite (Part000_run _ _ _ Hu), returned_outcome.
    destruct (parsed_date req) as [e|day]; [done|].
    eapply Forall_impl; [apply page_matches|]. intros t.
    rewrite Part000_ticket_matches. unfold Part000_selects. rewrite Hs, Hov.
    intros (_ & _ & _ & _ & H). by apply searched_found.
Qed.

(** The search for "maria" returns the ticket of Maria Silva. *)
Lemma search_finds_the_text_witness :
  Forall (found "maria")
    (returned (run (Backend.ListTicketsService search_maria) store_other_owner))
  ∧ Forall (found "maria")
      (returned (run (Part000.ListTicketsService search_maria) store_other_owner))
  ∧ returned (run (Backend.ListTicketsService search_maria) store_other_owner)
    = [maria].
Proof.
  destruct (search_finds_the_text store_other_owner search_maria agent5)
    as [HB HP]; [by vm_compute..|].
  split_and!; [exact HB|apply HP; by vm_compute|by vm_compute].
Defined.

(** X7: the wildcards of the search text are not escaped. A search text of
    [%] signs selects every ticket that passes the queue clause and the
    filters, whoever owns it: in ListTicketsService.ts the selection is then
    exactly [Backend_filters]. *)
Theorem percent_search_selects_all st req u day o :
  users st !! userId req = Some u →
  parsed_date req = inr day →
  has_search req = true →
  percents (sanitized req) = true →
  issued (run (Backend.ListTicketsService req) st) = Some o →
  ∀ t, ticket_matches o t ↔ Backend_filters req u day t.
Proof.
  intros Hu Hd Hs Hp. rewrite (Backend_run _ _ _ Hu), issued_outcome, Hd.
  intros [= <-] t. rewrite Backend_ticket_matches.
  unfold Backend_selects. rewrite Hs. split; [by intros [? _]|].
  intros H. split; [done|]. by apply searched_percents.
Qed.

(** The search for "%" selects the ticket of another agent. *)
Lemma percent_search_selects_all_witness :
  (∀ t, ticket_matches
          (options_with
             (Backend_where (with_searchParam (Some "%") (request 5)) agent5 None)
             (with_searchParam (Some "%") (request 5))) t
        ↔ Backend_filters (with_searchParam (Some "%") (request 5)) agent5 None t)
  ∧ returned (run (Backend.ListTicketsService
                     (with_searchParam (Some "%") (request 5)))
                store_other_owner) = [maria].
Proof.
  split; [|by vm_compute].
  apply (percent_search_selects_all store_other_owner
           (with_searchParam (Some "%") (request 5)) agent5 None);
    by vm_compute.
Defined.

(** ** Pages of a request without search text *)

Lemma filter_ext_elem {A} (P Q : A → Prop) `{!∀ x, Decision (P x)}
    `{!∀ x, Decision (Q x)} (l : list A) :
  (∀ x, x ∈ l → P x ↔ Q x) → filter P l = filter Q l.
Proof.
  induction l as [|x l IH]; intros Hext; [done|].
  rewrite !filter_cons. rewrite IH by (intros y Hy; apply Hext; by right).
  destruct (decide (P x)) as [HP|HP], (decide (Q x)) as [HQ|HQ]; try done.
  - destruct HQ. apply Hext; [left|done].
  - destruct HP. apply Hext; [left|done].
Qed.

Lemma ticket_matches_no_search w req t :
  has_search req = false →
  ticket_matches (options_with w req) t ↔ where_holds w (t, None) = true.
Proof.
  intros Hs. unfold ticket_matches. rewrite joined_rows_no_search by done.
  cbn [where_ options_with]. rewrite Exists_cons, Exists_nil. tauto.
Qed.

Lemma matching_rows_no_search db w req :
  has_search req = false →
  matching_rows db (options_with w req)
  = (λ t, (t, None)) <$>
      filter (ticket_matches (options_with w req))
        (merge_sort (order_rel [("updatedAt", DESC)]) db).
Proof.
  intros Hs. unfold matching_rows. cbn [order where_ options_with].
  induction (merge_sort _ db) as [|t l IH]; [done|].
  cbn [flat_map]. rewrite joined_rows_no_search by done.
  cbn [app]. rewrite !filter_cons, IH.
  destruct (decide (where_holds w (t, None) = true)) as [Hw|Hw],
    (decide (ticket_matches (options_with w req) t)) as [Hm|Hm]; try done.
  - destruct Hm. by apply (ticket_matches_no_search w req t Hs).
  - destruct Hw. by apply (ticket_matches_no_search w req t Hs).
Qed.

Lemma fmap_fst_row (l : list Ticket.t) :
  ((λ t, (t, None : option Message.t)) <$> l).*1 = l.
Proof. induction l as [|t l IH]; [done|]. cbn. by f_equal. Qed.

Lemma outcome_page_of_matching w req st day :
  parsed_date req = inr day →
  has_search req = false →
  NoDup (Ticket.id <$> all_tickets st) →
  1 ≤ default 1 (pageNumber req) →
  page_of_matching (all_tickets st) req (outcome w req st).
Proof.
  intros Hd Hs Hnd Hpage. unfold page_of_matching. cbn zeta.
  set (o := options_with (w day) req).
  set (sorted := filter (ticket_matches o)
                   (merge_sort (order_rel [("updatedAt", DESC)]) (all_tickets st))).
  assert (NoDup (Ticket.id <$> sorted)) as Hsorted.
  { eapply sublist_NoDup; [|apply fmap_sublist, sublist_filter].
    by rewrite merge_sort_Permutation. }
  assert (returned (outcome w req st)
          = take 40 (drop (Z.to_nat (40 * (default 1 (pageNumber req) - 1))) sorted))
    as Hpg.
  { rewrite returned_outcome, Hd. unfold find_and_count. cbn [snd].
    rewrite (matching_rows_no_search _ _ _ Hs).
    cbn [limit offset options_with]. fold o. fold sorted.
    change (Z.to_nat 40) with 40%nat.
    rewrite <- fmap_drop, <- fmap_take, fmap_fst_row.
    apply group_by_id_NoDup.
    - eapply sublist_NoDup; [exact Hsorted|].
      apply fmap_sublist. etrans; [apply sublist_take|apply sublist_drop].
    - apply Forall_forall. intros ? _. apply not_elem_of_nil. }
  assert (counted (outcome w req st) = Z.of_nat (length sorted)) as Hc.
  { rewrite counted_outcome, Hd. fold o. rewrite count_distinct by done.
    f_equal. apply Permutation_length. unfold sorted.
    by rewrite merge_sort_Permutation. }
  exists o, sorted. split_and!; try done.
  - by rewrite issued_outcome, Hd.
  - unfold sorted. by rewrite merge_sort_Permutation.
  - eapply StronglySorted_sublist; [apply sublist_filter|].
    rewrite <- order_updatedAt. apply StronglySorted_merge_sort; apply _.
  - unfold has_more, outcome. rewrite Hd. cbn [fst hasMore respond].
    rewrite bool_decide_eq_true.
    change (find_and_count (all_tickets st) (options_with (w day) req)).1
      with (counted (inr (respond (all_tickets st) o) : Error + Response,
                     @nil Event)).
    change (find_and_count (all_tickets st) (options_with (w day) req)).2
      with (returned (inr (respond (all_tickets st) o) : Error + Response,
                      @nil Event)).
    assert (∀ l, counted (inr (respond (all_tickets st) o) : Error + Response, l)
                 = counted (outcome w req st)) as Hc'
      by (intros l; by rewrite counted_outcome, Hd).
    assert (∀ l, returned (inr (respond (all_tickets st) o) : Error + Response, l)
                 = returned (outcome w req st)) as Hr'
      by (intros l; by rewrite returned_outcome, Hd).
    rewrite Hc', Hr', Hc, Hpg, length_take, length_drop.
    cbn [offset options_with]. lia.
Qed.

(** X8: for a request without search text and with a page number of at
    least 1, over tickets with unique ids, either version returns exactly
    the tickets at positions 40·(page−1)+1 to 40·page of the matching
    tickets taken most recently updated first; the count is their total
    number and [hasMore] is true iff tickets are left after the page. *)
Theorem page_without_search st req u day :
  users st !! userId req = Some u →
  parsed_date req = inr day →
  has_search req = false →
  NoDup (Ticket.id <$> all_tickets st) →
  1 ≤ default 1 (pageNumber req) →
  page_of_matching (all_tickets st) req
    (run (Backend.ListTicketsService req) st)
  ∧ page_of_matching (all_tickets st) req
      (run (Part000.ListTicketsService req) st).
Proof.
  intros Hu Hd Hs Hnd Hp.
  rewrite (Backend_run _ _ _ Hu), (Part000_run _ _ _ Hu).
  split; by eapply outcome_page_of_matching.
Qed.

Lemma store_mixed_NoDup : NoDup (Ticket.id <$> all_tickets store_mixed).
Proof. apply (bool_decide_unpack _). by vm_compute. Defined.

(** The first page of agent 5 over [store_mixed]. *)
Lemma page_without_search_witness :
  page_of_matching (all_tickets store_mixed) (request 5)
    (run (Backend.ListTicketsService (request 5)) store_mixed)
  ∧ page_of_matching (all_tickets store_mixed) (request 5)
      (run (Part000.ListTicketsService (request 5)) store_mixed)
  ∧ length (returned (run (Backend.ListTicketsService (request 5)) store_mixed))
    = 3%nat.
Proof.
  destruct (page_without_search store_mixed (request 5) agent5 None)
    as [HB HP];
    [by vm_compute|by vm_compute|by vm_compute|apply store_mixed_NoDup
    |by vm_compute|].
  split_and!; [exact HB|exact HP|by vm_compute].
Defined.

(** ** Where the two versions agree *)

Lemma matching_rows_ext db o1 o2 :
  include o1 = include o2 → order o1 = order o2 →
  (∀ r, r.1 ∈ db → where_holds (where_ o1) r = where_holds (where_ o2) r) →
  matching_rows db o1 = matching_rows db o2.
Proof.
  intros Hi Ho Hw. unfold matching_rows. rewrite Hi, Ho.
  apply filter_ext_elem. intros r Hr.
  apply list_elem_of_In, in_flat_map in Hr as (t & Ht & Hr).
  apply list_elem_of_In in Ht, Hr.
  rewrite Hw; [done|]. rewrite (joined_rows_fst _ _ _ Hr).
  by rewrite merge_sort_Permutation in Ht.
Qed.

Lemma respond_ext db w1 w2 req :
  (∀ r, r.1 ∈ db → where_holds w1 r = where_holds w2 r) →
  respond db (options_with w1 req) = respond db (options_with w2 req).
Proof.
  intros Hw. unfold respond, find_and_count.
  by rewrite (matching_rows_ext db (options_with w1 req) (options_with w2 req)).
Qed.

Lemma Backend_ordinary_not_admin u :
  Backend.isAdmin u = false → Part000.isAdmin u = false.
Proof.
  unfold Backend.isAdmin, Part000.isAdmin. by intros [? _]%orb_false_iff.
Qed.

(** X9: for a user who is neither admin nor superadmin, over a store where
    every ticket is in a queue, the two versions give the same response (or
    the same error), except when unread is set together with a search text
    and without showAll. *)
Theorem versions_agree_on_ordinary_users st req u :
  users st !! userId req = Some u →
  Backend.isAdmin u = false →
  all_queued st →
  has_unread req && has_search req && negb (is_true_flag (showAll req)) = false →
  (run (Backend.ListTicketsService req) st).1
  = (run (Part000.ListTicketsService req) st).1.
Proof.
  intros Hu Ha Hq Hov. pose proof (Backend_ordinary_not_admin _ Ha) as Ha'.
  rewrite (Backend_run _ _ _ Hu), (Part000_run _ _ _ Hu). unfold outcome.
  destruct (parsed_date req) as [e|day]; [done|]. cbn [fst]. f_equal.
  apply respond_ext. intros [t m] Ht. simpl in Ht.
  apply eq_true_iff_eq.
  rewrite Backend_where_holds, Part000_where_holds.
  unfold Backend_filters. cbn zeta. rewrite Ha, Ha'. cbn [fst negb].
  assert (queue_in (sentinel (userQueueIds u)) t
          ↔ (false = false → queue_in_or_null (userQueueIds u) t)) as ->.
  { unfold all_queued in Hq. rewrite Forall_forall in Hq. specialize (Hq t Ht).
    unfold queue_in, queue_in_or_null.
    destruct (Ticket.queueId t) as [q|]; [|done].
    destruct (userQueueIds u) as [|q' qs]; [|naive_solver].
    rewrite sentinel_nil. split.
    - intros ->%list_elem_of_singleton. lia.
    - intros H. specialize (H eq_refl). by apply elem_of_nil in H. }
  assert (has_search req
          && negb (has_unread req && true && negb (is_true_flag (showAll req)))
          = has_search req) as ->.
  { destruct (has_search req), (has_unread req), (is_true_flag (showAll req));
      done. }
  tauto.
Qed.

Lemma store_mixed_all_queued : all_queued store_mixed.
Proof. unfold all_queued. simpl. repeat constructor. Defined.

(** Agent 5 over [store_mixed], with the unread filter. *)
Lemma versions_agree_on_ordinary_users_witness :
  (run (Backend.ListTicketsService (with_unread (Some "true") (request 5)))
     store_mixed).1
  = (run (Part000.ListTicketsService (with_unread (Some "true") (request 5)))
       store_mixed).1
  ∧ length (returned (run (Backend.ListTicketsService
                             (with_unread (Some "true") (request 5)))
                        store_mixed)) = 2%nat.
Proof.
  split; [|by vm_compute].
  apply (versions_agree_on_ordinary_users store_mixed
           (with_unread (Some "true") (request 5)) agent5);
    [by vm_compute|by vm_compute|apply store_mixed_all_queued|by vm_compute].
Defined.

(** ** Filters only narrow *)

Lemma filter_length_mono {A} (P Q : A → Prop) `{!∀ x, Decision (P x)}
    `{!∀ x, Decision (Q x)} (l : list A) :
  (∀ x, P x → Q x) → (length (filter P l) ≤ length (filter Q l))%nat.
Proof.
  intros HPQ. induction l as [|x l IH]; [done|]. rewrite !filter_cons.
  destruct (decide (P x)) as [HP|HP], (decide (Q x)) as [HQ|HQ]; simpl; try lia.
  destruct HQ. by apply HPQ.
Qed.

Lemma counted_nonneg w req st : 0 ≤ counted (outcome w req st).
Proof.
  rewrite counted_outcome. destruct (parsed_date req); [done|].
  unfold find_and_count. cbn [fst]. lia.
Qed.

Lemma counted_mono w w' req req' st :
  NoDup (Ticket.id <$> all_tickets st) →
  (∀ day, parsed_date req = inr day →
     ∃ day', parsed_date req' = inr day'
       ∧ ∀ t, ticket_matches (options_with (w day) req) t
              → ticket_matches (options_with (w' day') req') t) →
  counted (outcome w req st) ≤ counted (outcome w' req' st).
Proof.
  intros Hnd H. destruct (parsed_date req) as [e|day] eqn:Hd.
  - rewrite (counted_outcome w), Hd. apply counted_nonneg.
  - destruct (H day eq_refl) as (day' & Hd' & Hm).
    rewrite !counted_outcome, Hd, Hd', !count_distinct by done.
    apply inj_le. by apply filter_length_mono.
Qed.

Lemma parsed_date_with_status s req :
  parsed_date (with_status s req) = parsed_date req.
Proof. done. Qed.

Lemma parsed_date_with_unread f req :
  parsed_date (with_unread f req) = parsed_date req.
Proof. done. Qed.

(** X10: in ListTicketsService.ts the status, date and unread filters only
    narrow the selection: over tickets with unique ids, the count of a
    request is at most the count of the same request with the status, the
    date or the unread flag taken away. *)
Theorem Backend_filters_narrow st req u :
  users st !! userId req = Some u →
  NoDup (Ticket.id <$> all_tickets st) →
  counted (run (Backend.ListTicketsService req) st)
  ≤ counted (run (Backend.ListTicketsService (with_status None req)) st)
  ∧ counted (run (Backend.ListTicketsService req) st)
    ≤ counted (run (Backend.ListTicketsService (with_date None req)) st)
  ∧ counted (run (Backend.ListTicketsService req) st)
    ≤ counted (run (Backend.ListTicketsService (with_unread None req)) st).
Proof.
  intros Hu Hnd. rewrite !(Backend_run _ _ u) by done.
  split_and!; apply counted_mono; try done; intros day Hd.
  - exists day. split; [done|]. intros t.
    rewrite !Backend_ticket_matches. unfold Backend_selects, Backend_filters.
    cbn. naive_solver.
  - exists None. split; [done|]. intros t.
    rewrite !Backend_ticket_matches. unfold Backend_selects, Backend_filters.
    cbn. naive_solver.
  - exists day. split; [done|]. intros t.
    rewrite !Backend_ticket_matches. unfold Backend_selects, Backend_filters.
    cbn. naive_solver.
Qed.

(** Agent 5 over [store_mixed]: one closed ticket with unread messages
    created on 2024-05-01, out of three tickets. *)
Lemma Backend_filters_narrow_witness :
  counted (run (Backend.ListTicketsService
     (with_status (Some "closed")
        (with_date (Some "2024-05-01")
           (with_unread (Some "true") (request 5))))) store_mixed) = 1
  ∧ counted (run (Backend.ListTicketsService
       (with_status (Some "closed")
          (with_date (Some "2024-05-01")
             (with_unread (Some "true") (request 5))))) store_mixed)
    ≤ counted (run (Backend.ListTicketsService
         (with_status None
            (with_status (Some "closed")
               (with_date (Some "2024-05-01")
                  (with_unread (Some "true") (request 5)))))) store_mixed).
Proof.
  split; [by vm_compute|].
  apply (Backend_filters_narrow store_mixed
           (with_status (Some "closed")
              (with_date (Some "2024-05-01")
                 (with_unread (Some "true") (request 5)))) agent5);
    [by vm_compute|apply store_mixed_NoDup].
Defined.

(** ** Case and padding of the search text *)

Lemma truthy_nonempty s : s ≠ "" → truthy s = true.
Proof. by destruct s. Qed.

Lemma outcome_search_ext (w : Request → option Z → gmap Key Entry) req s1 s2 st :
  s1 ≠ "" → s2 ≠ "" →
  trim (toLocaleLowerCase s1) = trim (toLocaleLowerCase s2) →
  (∀ day, w (with_searchParam (Some s1) req) day
          = w (with_searchParam (Some s2) req) day) →
  outcome (w (with_searchParam (Some s1) req)) (with_searchParam (Some s1) req) st
  = outcome (w (with_searchParam (Some s2) req)) (with_searchParam (Some s2) req) st.
Proof.
  intros H1 H2 Heq Hw. unfold outcome.
  change (parsed_date (with_searchParam (Some s1) req)) with (parsed_date req).
  change (parsed_date (with_searchParam (Some s2) req)) with (parsed_date req).
  destruct (parsed_date req) as [e|day]; [done|].
  rewrite Hw. unfold options_with, has_search, sanitized.
  cbn [searchParam pageNumber with_searchParam default userId id].
  by rewrite !truthy_nonempty, Heq.
Qed.

(** X11: the search text counts lower-cased and trimmed only. Two non-empty
    search texts that are equal once lower-cased and trimmed give the same
    run of either version: the same query and the same response or error. *)
Theorem search_ignores_case_and_padding st req s1 s2 :
  s1 ≠ "" → s2 ≠ "" →
  trim (toLocaleLowerCase s1) = trim (toLocaleLowerCase s2) →
  run (Backend.ListTicketsService (with_searchParam (Some s1) req)) st
  = run (Backend.ListTicketsService (with_searchParam (Some s2) req)) st
  ∧ run (Part000.ListTicketsService (with_searchParam (Some s1) req)) st
    = run (Part000.ListTicketsService (with_searchParam (Some s2) req)) st.
Proof.
  intros H1 H2 Heq. destruct (users st !! userId req) as [u|] eqn:Hu.
  - rewrite !(Backend_run _ _ u), !(Part000_run _ _ u) by done.
    split; apply (outcome_search_ext (λ r, _ r u)); try done; intros day.
    + unfold Backend_where, has_search, sanitized, status_entry, unread_entry,
        has_unread.
      cbn [searchParam with_searchParam default userId status showAll
           withUnreadMessages queueIds id].
      by rewrite !truthy_nonempty, Heq.
    + unfold Part000_where, has_search, sanitized, status_entry, unread_entry,
        has_unread.
      cbn [searchParam with_searchParam default userId status showAll
           withUnreadMessages queueIds id].
      by rewrite !truthy_nonempty, Heq.
  - by rewrite !Backend_run_missing, !Part000_run_missing.
Qed.

(** " Maria " and "maria" find the same ticket. *)
Lemma search_ignores_case_and_padding_witness :
  run (Backend.ListTicketsService (with_searchParam (Some " Maria ") (request 5)))
    store_other_owner
  = run (Backend.ListTicketsService search_maria) store_other_owner
  ∧ run (Part000.ListTicketsService
           (with_searchParam (Some " Maria ") (request 5))) store_other_owner
    = run (Part000.ListTicketsService search_maria) store_other_owner
  ∧ returned (run (Backend.ListTicketsService
                     (with_searchParam (Some " Maria ") (request 5)))
                store_other_owner) = [maria].
Proof.
  destruct (search_ignores_case_and_padding store_other_owner (request 5)
              " Maria " "maria") as [HB HP]; [done|done|by vm_compute|].
  split_and!; [exact HB|exact HP|by vm_compute].
Defined.
